(** * fusewrap: a shallow embedding of [fusewrap.py]

    The tool reads the host aliases of an SSH client configuration file,
    reads the sshfs entries of [/proc/mounts], and mounts or unmounts one
    alias under a mount base directory by running [sshfs] or [fusermount].

    Texts are sequences of characters; a character is a code point below
    256 ([ascii]), which covers the files the tool reads in practice.
    A file is given by the characters it holds; both files are opened in
    text mode, so a line ends at a line feed, at a carriage return, or at
    a carriage return followed by a line feed, and the program sees each
    of these endings as one line feed.
    Operating-system calls are answered by an oracle and the calls that
    change the world (directories, processes, output) are logged in a
    trace, in program order. *)

From Stdlib Require Import String Ascii List Bool Arith Lia Permutation.
Import ListNotations.
Open Scope string_scope.
Open Scope list_scope.

(** String concatenation, written apart from list concatenation. *)
Infix "+++" := String.append (right associativity, at level 60).

(** ** Python strings *)

Module PyStr.

(** [str.isspace] on one character, as [str.split()] uses it: the code
    points 9..13, 28..32, 133 and 160 are the ones below 256. *)
Definition isspace (c : ascii) : bool :=
  let n := nat_of_ascii c in
  (((9 <=? n) && (n <=? 13)) || ((28 <=? n) && (n <=? 32))
   || (n =? 133) || (n =? 160))%nat.

Definition newline : ascii := ascii_of_nat 10.
Definition slash : ascii := ascii_of_nat 47.
Definition dquote : string := String (ascii_of_nat 34) EmptyString.

(** [flush tok]: a finished token, if any character was collected. *)
Definition flush (tok : string) : list string :=
  match tok with
  | EmptyString => []
  | _ => [tok]
  end.

(** [s.split()]: the maximal runs of non-whitespace characters of [s],
    in order.  [tok] is the run being collected. *)
Fixpoint split_from (tok s : string) : list string :=
  match s with
  | EmptyString => flush tok
  | String c rest =>
      if isspace c then flush tok ++ split_from EmptyString rest
      else split_from (tok +++ String c EmptyString) rest
  end.

Definition split (s : string) : list string := split_from EmptyString s.

(** [s.split(sep)] for a one-character separator: every piece, the
    empty ones included; always at least one piece. *)
Fixpoint split_on (sep : ascii) (s : string) : list string :=
  match s with
  | EmptyString => [EmptyString]
  | String c rest =>
      if Ascii.eqb c sep then EmptyString :: split_on sep rest
      else match split_on sep rest with
           | [] => [String c EmptyString]
           | piece :: pieces => String c piece :: pieces
           end
  end.

(** [s.startswith(p)] *)
Definition startswith (s p : string) : bool := String.prefix p s.

(** [sep.join(l)] *)
Definition join (sep : string) (l : list string) : string :=
  String.concat sep l.

(** [s.lstrip(c)] for one character, with the number of characters
    that were stripped. *)
Fixpoint lstrip (c : ascii) (s : string) : nat * string :=
  match s with
  | String d rest =>
      if Ascii.eqb d c then let (n, r) := lstrip c rest in (S n, r)
      else (0, s)
  | EmptyString => (0, s)
  end.

Definition carriage_return : ascii := ascii_of_nat 13.

(** What a file opened with [open(path, 'r')] delivers of the characters
    it holds: every line ending, be it a carriage return followed by a
    line feed, a lone carriage return or a line feed, comes out as one
    line feed. *)
Fixpoint universal_newlines (s : string) : string :=
  match s with
  | EmptyString => EmptyString
  | String c rest =>
      if Ascii.eqb c carriage_return then
        match rest with
        | String d rest' =>
            if Ascii.eqb d newline then String newline (universal_newlines rest')
            else String newline (universal_newlines rest)
        | EmptyString => String newline EmptyString
        end
      else String c (universal_newlines rest)
  end.

(** A delivered text cut after each line feed: each line keeps its line
    feed, the last one may lack it, and no line is empty. *)
Fixpoint keepends (s : string) : list string :=
  match s with
  | EmptyString => []
  | String c rest =>
      if Ascii.eqb c newline then String c EmptyString :: keepends rest
      else match keepends rest with
           | [] => [String c EmptyString]
           | line :: lines => String c line :: lines
           end
  end.

(** The lines [readline] and [readlines] deliver of a file that holds the
    characters [s]. *)
Definition readlines (s : string) : list string :=
  keepends (universal_newlines s).

(** [l[i]]: an index past the end is an error. *)
Definition index {A : Type} (l : list A) (i : nat) : option A :=
  nth_error l i.

End PyStr.

(** ** [pathlib.Path] on a POSIX system *)

Module Path.

(** A parsed path: the root ([""], ["/"] or ["//"]; the drive is always
    empty on POSIX) and the components after it. *)
Record t : Type := mk { root : string; parts : list string }.

(** [splitroot]: one or at least three leading slashes give the root
    ["/"], exactly two give ["//"]. *)
Definition splitroot (part : string) : string * string :=
  match PyStr.lstrip PyStr.slash part with
  | (0, _) => ("", part)
  | (2, stripped) => ("//", stripped)
  | (_, stripped) => ("/", stripped)
  end.

Definition keep_component (x : string) : bool :=
  negb (String.eqb x "") && negb (String.eqb x ".").

(** [Path(s)]: empty and ["."] components are dropped. *)
Definition of_str (s : string) : t :=
  let (r, rel) := splitroot s in
  mk r (filter keep_component (PyStr.split_on PyStr.slash rel)).

(** [self / key] for a string [key]: an anchored [key] replaces [self]. *)
Definition truediv (self : t) (key : string) : t :=
  let k := of_str key in
  if String.eqb (root k) "" then mk (root self) (parts self ++ parts k)
  else k.

(** The list Python compares: the root, when there is one, comes first. *)
Definition cparts (p : t) : list string :=
  if String.eqb (root p) "" then parts p else root p :: parts p.

Fixpoint list_eqb (l m : list string) : bool :=
  match l, m with
  | [], [] => true
  | x :: l', y :: m' => String.eqb x y && list_eqb l' m'
  | _, _ => false
  end.

(** [p == q] *)
Definition eqb (p q : t) : bool := list_eqb (cparts p) (cparts q).

(** [str(p)] *)
Definition str (p : t) : string :=
  let s := root p +++ PyStr.join "/" (parts p) in
  if String.eqb s "" then "." else s.

End Path.

(** ** Exceptions, the operating system, and the monad of the program *)

Inductive exn : Type :=
| FuseWrapException (msg : string)
| TypeError (msg : string)
| IndexError
| OSError (msg : string)
| KeyboardInterrupt
| SystemExit (code : nat).

(** What a call into the operating system can fail with. *)
Inductive failure : Type :=
| OsFailure (msg : string)
| Interrupt.

Definition exn_of_failure (f : failure) : exn :=
  match f with
  | OsFailure msg => OSError msg
  | Interrupt => KeyboardInterrupt
  end.

(** The answers of the operating system during one run of the tool.  Each
    of these calls is made at most once per run with a given argument, so
    a function of the argument describes a run. *)
Record OS : Type := {
  expanduser : string -> string;
  open_read : string -> failure + string;
  makedirs : Path.t -> option failure;
  rmdir : Path.t -> option failure;
  popen : list string -> option failure;
  communicate : list string -> option failure
}.

(** The calls that act on the world, as the trace records them.  A call
    is recorded when it is made, whether or not it then fails.  [Stdout]
    and [Stderr] are the prints of the tool itself; what a started
    program writes on the streams it inherits is not recorded. *)
Inductive event : Type :=
| Makedirs (path : Path.t)
| Rmdir (path : Path.t)
| Popen (args : list string)
| Communicate (args : list string)
| Stdout (text : string)
| Stderr (text : string)
| PrintHelp.

Definition result (A : Type) : Type := (exn + A)%type.

Definition M (A : Type) : Type := OS -> list event * result A.

Definition ret {A : Type} (a : A) : M A := fun _ => ([], inr a).

Definition raise {A : Type} (e : exn) : M A := fun _ => ([], inl e).

Definition bind {A B : Type} (m : M A) (f : A -> M B) : M B :=
  fun os =>
    match m os with
    | (t, inl e) => (t, inl e)
    | (t, inr a) => let (t', r) := f a os in (t ++ t', r)
    end.

Notation "x <- m ;; k" := (bind m (fun x => k))
  (at level 61, m at next level, right associativity).
Notation "m ;;; k" := (bind m (fun _ => k))
  (at level 61, right associativity).

Definition lift {A : Type} (r : result A) : M A := fun _ => ([], r).

(** A call that acts on the world: logged, then answered by the system. *)
Definition call (ev : event) (answer : OS -> option failure) : M unit :=
  fun os =>
    match answer os with
    | Some f => ([ev], inl (exn_of_failure f))
    | None => ([ev], inr tt)
    end.

Definition print (text : string) : M unit := fun _ => ([Stdout text], inr tt).
Definition print_stderr (text : string) : M unit :=
  fun _ => ([Stderr text], inr tt).

(** [open(path, 'r')] and the whole text behind it. *)
Definition open (path : string) : M string :=
  fun os =>
    match open_read os path with
    | inl f => ([], inl (exn_of_failure f))
    | inr text => ([], inr text)
    end.

(** [try: m except FuseWrapException ...: h1 except KeyboardInterrupt: h2] *)
Definition try_except {A : Type} (m : M A)
    (on_fusewrap : string -> M A) (on_interrupt : M A) : M A :=
  fun os =>
    match m os with
    | (t, inl (FuseWrapException msg)) =>
        let (t', r) := on_fusewrap msg os in (t ++ t', r)
    | (t, inl KeyboardInterrupt) =>
        let (t', r) := on_interrupt os in (t ++ t', r)
    | other => other
    end.

(** ** The classes of [fusewrap.py] *)

Module FuseMount.
Record t : Type := mk { path : Path.t }.
End FuseMount.

Module SSHostname.

Record t : Type := mk { _name : string }.

(** The values a host name can be compared with. *)
Inductive object : Type :=
| Host (h : t)
| Mount (m : FuseMount.t)
| Str (s : string)
| PathObj (p : Path.t)
| Int (n : nat)
| NoneObj.

Definition get_path (self : t) (root : Path.t) : Path.t :=
  Path.truediv root (_name self).

Definition get_mount_root (self : t) : string := _name self +++ ":/".

Fixpoint is_mounted_loop (path : Path.t) (fuses : list FuseMount.t) : bool :=
  match fuses with
  | [] => false
  | fuse :: rest =>
      if Path.eqb path (FuseMount.path fuse) then true
      else is_mounted_loop path rest
  end.

Definition is_mounted (self : t) (root : Path.t)
    (fuses : list FuseMount.t) : bool :=
  is_mounted_loop (get_path self root) fuses.

Definition __eq__ (self : t) (obj : object) : result bool :=
  match obj with
  | Host o => inr (String.eqb (_name o) (_name self))
  | _ => inl (TypeError "Wants SSHostname")
  end.

Definition __str__ (self : t) : string := _name self.

(** [el in l] for a list of host names: the items are compared with
    [el] in order, up to the first that is equal or fails. *)
Fixpoint contains (l : list t) (el : object) : result bool :=
  match l with
  | [] => inr false
  | item :: rest =>
      match __eq__ item el with
      | inl e => inl e
      | inr true => inr true
      | inr false => contains rest el
      end
  end.

End SSHostname.

Module FuseWrap.

Record t : Type := mk {
  _mount_path : Path.t;
  _ssh_cfg_path : Path.t;
  _fuse_mounts : list FuseMount.t;
  _hosts : list SSHostname.t
}.

(** The three messages of [FuseWrapException]. *)
Definition unknown_host_msg (self : t) (host : SSHostname.t) : string :=
  "There is no " +++ SSHostname.__str__ host +++ " hostname in "
  +++ Path.str (_ssh_cfg_path self).

Definition already_mounted_msg (host : SSHostname.t) (mount_point : Path.t)
    : string :=
  "Host " +++ SSHostname.__str__ host +++ " already mounted in "
  +++ Path.str mount_point.

Definition already_unmounted_msg (host : SSHostname.t) : string :=
  "Host " +++ SSHostname.__str__ host +++ " already unmounted".

(** The loop of [_get_fuse_mounts] over the lines of the table. *)
Fixpoint fuse_mounts_loop (lines : list string) (result : list FuseMount.t)
    : exn + list FuseMount.t :=
  match lines with
  | [] => inr result
  | line :: rest =>
      let tokens := PyStr.split line in
      match PyStr.index tokens 2 with
      | None => inl IndexError
      | Some fstype =>
          if String.eqb fstype "fuse.sshfs" then
            match PyStr.index tokens 1 with
            | None => inl IndexError
            | Some mnt =>
                fuse_mounts_loop rest
                  (result ++ [FuseMount.mk (Path.of_str mnt)])
            end
          else fuse_mounts_loop rest result
      end
  end.

Definition _get_fuse_mounts : M (list FuseMount.t) :=
  text <- open "/proc/mounts" ;;
  lift (fuse_mounts_loop (PyStr.readlines text) []).

(** The loop of [_get_hostnames] over the lines of the file. *)
Fixpoint hostnames_loop (lines : list string) (result : list SSHostname.t)
    : exn + list SSHostname.t :=
  match lines with
  | [] => inr result
  | line :: rest =>
      if PyStr.startswith line "Host" then
        match PyStr.index (PyStr.split line) 1 with
        | None => inl IndexError
        | Some name => hostnames_loop rest (result ++ [SSHostname.mk name])
        end
      else hostnames_loop rest result
  end.

Definition _get_hostnames (path : Path.t) : M (list SSHostname.t) :=
  text <- open (Path.str path) ;;
  lift (hostnames_loop (PyStr.readlines text) []).

Definition HOME_PATH (os : OS) : Path.t := Path.of_str (expanduser os "~").
Definition DEFAULT_SSH_CFG_PATH (os : OS) : Path.t :=
  Path.truediv (HOME_PATH os) ".ssh/config".
Definition DEFAULT_MOUNT_PATH (os : OS) : Path.t :=
  Path.truediv (HOME_PATH os) "mnt".

(** [FuseWrap(args)]: the mount table is read before the configuration. *)
Definition __init__ (mount_dir_path : string) : M t :=
  fun os =>
    (let mount_path := Path.of_str (expanduser os mount_dir_path) in
     let ssh_cfg_path := DEFAULT_SSH_CFG_PATH os in
     fuse_mounts <- _get_fuse_mounts ;;
     hosts <- _get_hostnames ssh_cfg_path ;;
     ret (mk mount_path ssh_cfg_path fuse_mounts hosts)) os.

Definition _check_host (self : t) (hostname : SSHostname.t) : M unit :=
  known <- lift (SSHostname.contains (_hosts self) (SSHostname.Host hostname)) ;;
  if negb known then raise (FuseWrapException (unknown_host_msg self hostname))
  else ret tt.

Definition mount_path (self : t) : Path.t := _mount_path self.

Definition get_mounted (self : t) : list SSHostname.t :=
  filter (fun hostname =>
            SSHostname.is_mounted hostname (_mount_path self) (_fuse_mounts self))
         (_hosts self).

Definition get_unmounted (self : t) : list SSHostname.t :=
  filter (fun hostname =>
            negb (SSHostname.is_mounted hostname (_mount_path self)
                    (_fuse_mounts self)))
         (_hosts self).

Definition quoted (args : list string) : string :=
  PyStr.dquote +++ PyStr.join " " args +++ PyStr.dquote.

Definition mount (self : t) (host : SSHostname.t) : M unit :=
  _check_host self host ;;;
  let mount_point := SSHostname.get_path host (_mount_path self) in
  mounted <- lift (SSHostname.contains (get_mounted self) (SSHostname.Host host)) ;;
  if (mounted : bool) then
    raise (FuseWrapException (already_mounted_msg host mount_point))
  else
    call (Makedirs mount_point) (fun os => makedirs os mount_point) ;;;
    let args := ["sshfs"; SSHostname.get_mount_root host; Path.str mount_point] in
    print (quoted args) ;;;
    call (Popen args) (fun os => popen os args) ;;;
    call (Communicate args) (fun os => communicate os args).

Definition umount (self : t) (host : SSHostname.t) : M unit :=
  _check_host self host ;;;
  let mount_point := SSHostname.get_path host (_mount_path self) in
  unmounted <- lift (SSHostname.contains (get_unmounted self) (SSHostname.Host host)) ;;
  if (unmounted : bool) then
    raise (FuseWrapException (already_unmounted_msg host))
  else
    let args := ["fusermount"; "-u"; Path.str mount_point] in
    print (quoted args) ;;;
    call (Popen args) (fun os => popen os args) ;;;
    call (Communicate args) (fun os => communicate os args) ;;;
    call (Rmdir mount_point) (fun os => rmdir os mount_point).

(** Names for the tests and the call sequences of [mount] and [umount],
    to state their behaviour with. *)

(** [item == host] for a configured [item]. *)
Definition named (host item : SSHostname.t) : bool :=
  String.eqb (SSHostname._name host) (SSHostname._name item).

(** [host in self._hosts] *)
Definition known (self : t) (host : SSHostname.t) : bool :=
  existsb (named host) (_hosts self).

(** The mount root of [host]: the mount base joined with its name. *)
Definition mount_root (self : t) (host : SSHostname.t) : Path.t :=
  SSHostname.get_path host (_mount_path self).

Definition mounted (self : t) (host : SSHostname.t) : bool :=
  SSHostname.is_mounted host (_mount_path self) (_fuse_mounts self).

Definition sshfs_args (self : t) (host : SSHostname.t) : list string :=
  ["sshfs"; SSHostname.get_mount_root host; Path.str (mount_root self host)].

Definition fusermount_args (self : t) (host : SSHostname.t) : list string :=
  ["fusermount"; "-u"; Path.str (mount_root self host)].

(** The calls of [mount] once both of its checks have passed. *)
Definition do_mount (self : t) (host : SSHostname.t) : M unit :=
  let mount_point := mount_root self host in
  let args := sshfs_args self host in
  call (Makedirs mount_point) (fun os => makedirs os mount_point) ;;;
  print (quoted args) ;;;
  call (Popen args) (fun os => popen os args) ;;;
  call (Communicate args) (fun os => communicate os args).

(** The calls of [umount] once both of its checks have passed. *)
Definition do_umount (self : t) (host : SSHostname.t) : M unit :=
  let mount_point := mount_root self host in
  let args := fusermount_args self host in
  print (quoted args) ;;;
  call (Popen args) (fun os => popen os args) ;;;
  call (Communicate args) (fun os => communicate os args) ;;;
  call (Rmdir mount_point) (fun os => rmdir os mount_point).

End FuseWrap.

(** ** The command line *)

(** The subcommand chosen on the command line, with its own arguments. *)
Inductive command : Type :=
| CmdList (all : bool)
| CmdMount (hostname : string)
| CmdUmount (hostname : string).

(** The parsed arguments; [job] is absent when no subcommand was given. *)
Record Args : Type := {
  mount_dir_path : string;
  job : option command
}.

Fixpoint print_each (lines : list string) : M unit :=
  match lines with
  | [] => ret tt
  | line :: rest => print line ;;; print_each rest
  end.

Definition job_list (args : Args) (all : bool) : M unit :=
  fuse_wrap <- FuseWrap.__init__ (mount_dir_path args) ;;
  print_each
    (map (fun mnt => SSHostname.__str__ mnt +++ " -> "
                     +++ Path.str (FuseWrap.mount_path fuse_wrap) +++ "/"
                     +++ SSHostname.__str__ mnt)
         (FuseWrap.get_mounted fuse_wrap)) ;;;
  if all then
    print_each (map (fun mnt => SSHostname.__str__ mnt +++ " -> empty")
                    (FuseWrap.get_unmounted fuse_wrap))
  else ret tt.

Definition job_mount (args : Args) (hostname : string) : M unit :=
  fuse_wrap <- FuseWrap.__init__ (mount_dir_path args) ;;
  FuseWrap.mount fuse_wrap (SSHostname.mk hostname).

Definition job_umount (args : Args) (hostname : string) : M unit :=
  fuse_wrap <- FuseWrap.__init__ (mount_dir_path args) ;;
  FuseWrap.umount fuse_wrap (SSHostname.mk hostname).

Definition run_job (args : Args) (c : command) : M unit :=
  match c with
  | CmdList all => job_list args all
  | CmdMount hostname => job_mount args hostname
  | CmdUmount hostname => job_umount args hostname
  end.

(** [main], from the parsed arguments on. *)
Definition main (args : Args) : M unit :=
  match job args with
  | None => call PrintHelp (fun _ => None) ;;; raise (SystemExit 1)
  | Some c =>
      try_except (run_job args c)
        (fun err => print_stderr ("ERR: " +++ err))
        (print "Job canceled")
  end.

(** ** What the specification says, in its own words *)

Module Spec.

(** The field of a table line at a position, empty when the line is
    too short. *)
Definition field (line : string) (i : nat) : string :=
  nth i (PyStr.split line) "".

(** A line whose filesystem-type field is the sshfs driver signature. *)
Definition is_sshfs_line (line : string) : bool :=
  String.eqb (field line 2) "fuse.sshfs".

(** Section 4.2: the records of the matching lines, in line order. *)
Definition mount_records (text : string) : list FuseMount.t :=
  map (fun line => FuseMount.mk (Path.of_str (field line 1)))
      (filter is_sshfs_line (PyStr.readlines text)).

(** A line that begins with the host-declaration keyword: its text
    starts with [Host] and that word is its whole first token. *)
Definition is_host_line (line : string) : bool :=
  PyStr.startswith line "Host" && String.eqb (field line 0) "Host".

(** Section 4.1: the token after the keyword of each host line, in file
    order. *)
Definition host_aliases (text : string) : list SSHostname.t :=
  map (fun line => SSHostname.mk (field line 1))
      (filter is_host_line (PyStr.readlines text)).

(** Every line has at least [n] whitespace-separated fields. *)
Definition lines_have_fields (n : nat) (lines : list string) : Prop :=
  Forall (fun line => n <= length (PyStr.split line)) lines.

(** Every line whose text starts with the characters of the keyword has
    a token after its first one. *)
Definition host_lines_have_alias (lines : list string) : Prop :=
  Forall (fun line => PyStr.startswith line "Host" = true ->
                      2 <= length (PyStr.split line)) lines.

(** Every line whose text starts with the characters of the keyword has
    the keyword as its whole first token, and a token after it. *)
Definition host_lines_well_formed (lines : list string) : Prop :=
  Forall (fun line => PyStr.startswith line "Host" = true ->
                      field line 0 = "Host" /\ 2 <= length (PyStr.split line))
         lines.

(** The mount root of an alias is present among the mount records. *)
Definition present (mount_root : Path.t) (fuses : list FuseMount.t) : Prop :=
  exists fuse, In fuse fuses /\ Path.eqb mount_root (FuseMount.path fuse) = true.

End Spec.

(** ** Fixtures: a home directory, file contents, and a system in which
    every call that acts on the world succeeds *)

Definition NL : string := String PyStr.newline EmptyString.

Definition fixture_os (mounts config : failure + string) : OS := {|
  expanduser := fun s => if String.eqb s "~" then "/home/u" else s;
  open_read := fun p =>
    if String.eqb p "/proc/mounts" then mounts
    else if String.eqb p "/home/u/.ssh/config" then config
    else inl (OsFailure "No such file or directory");
  makedirs := fun _ => None;
  rmdir := fun _ => None;
  popen := fun _ => None;
  communicate := fun _ => None
|}.

Definition web : SSHostname.t := SSHostname.mk "web".
Definition db : SSHostname.t := SSHostname.mk "db".
Definition web_db_config : string := "Host web" +++ NL +++ "Host db" +++ NL.

Definition sample_table : string :=
  "proc /proc proc rw 0 0" +++ NL
  +++ "web:/ /home/u/mnt/web fuse.sshfs rw,nosuid 0 0" +++ NL
  +++ "tmpfs /tmp tmpfs rw 0 0" +++ NL
  +++ "db:/ /home/u/mnt/db fuse.sshfs rw,nosuid 0 0" +++ NL.

Definition sample_config : string :=
  "# servers" +++ NL
  +++ "Host web" +++ NL
  +++ "    User admin" +++ NL
  +++ NL
  +++ "Host db backup" +++ NL
  +++ "    Host inner" +++ NL.

(** A controller with [web] mounted under [/home/u/mnt] and [db] not. *)
Definition sample_fw : FuseWrap.t :=
  FuseWrap.mk (Path.of_str "/home/u/mnt") (Path.of_str "/home/u/.ssh/config")
    [FuseMount.mk (Path.of_str "/home/u/mnt/web")] [web; db].

Definition sample_os : OS :=
  fixture_os (inr ("web:/ /home/u/mnt/web fuse.sshfs rw,nosuid 0 0" +++ NL))
             (inr web_db_config).

(** Command lines over the sample system, and a system whose SSH
    configuration file is missing. *)
Definition sample_args (c : command) : Args :=
  {| mount_dir_path := "/home/u/mnt"; job := Some c |}.

Definition no_config_os : OS :=
  fixture_os (inr "") (inl (OsFailure "No such file or directory")).

(** ** The completers and the reading loop as written *)

(** [complete_mounted(prefix, parsed_args)]: the names offered when the
    argument of [umount] is completed. *)
Definition complete_mounted (parsed_args : Args) : M (list string) :=
  fuse_wrap <- FuseWrap.__init__ (mount_dir_path parsed_args) ;;
  ret (map SSHostname.__str__ (FuseWrap.get_mounted fuse_wrap)).

(** [complete_unmounted(prefix, parsed_args)]: the names offered when the
    argument of [mount] is completed. *)
Definition complete_unmounted (parsed_args : Args) : M (list string) :=
  fuse_wrap <- FuseWrap.__init__ (mount_dir_path parsed_args) ;;
  ret (map SSHostname.__str__ (FuseWrap.get_unmounted fuse_wrap)).

(** The loop of [_get_hostnames] with its condition: [readline] answers
    the lines one after the other, and the loop ends at the first answer
    that is the empty string, which is how the end of the file shows. *)
Fixpoint hostnames_while (answers : list string) (result : list SSHostname.t)
    : exn + list SSHostname.t :=
  match answers with
  | [] => inr result
  | line :: rest =>
      if String.eqb line "" then inr result
      else if PyStr.startswith line "Host" then
        match PyStr.index (PyStr.split line) 1 with
        | None => inl IndexError
        | Some name => hostnames_while rest (result ++ [SSHostname.mk name])
        end
      else hostnames_while rest result
  end.

(** ** Vocabulary for the properties below *)

(** No character of the string is whitespace. *)
Fixpoint no_space (s : string) : bool :=
  match s with
  | EmptyString => true
  | String c rest => negb (PyStr.isspace c) && no_space rest
  end.

(** A token: not empty, and free of whitespace. *)
Definition clean (tok : string) : Prop := tok <> "" /\ no_space tok = true.

(** The character occurs in the string. *)
Fixpoint has_char (c : ascii) (s : string) : bool :=
  match s with
  | EmptyString => false
  | String d rest => Ascii.eqb d c || has_char c rest
  end.

(** A name that is one path component: not empty, not a dot, no slash. *)
Definition plain_name (name : string) : bool :=
  negb (String.eqb name "") && negb (String.eqb name ".")
  && negb (has_char PyStr.slash name).

Definition is_stdout (ev : event) : bool :=
  match ev with
  | Stdout _ => true
  | _ => false
  end.

(** The line [list] prints for a mounted host. *)
Definition mounted_line (fw : FuseWrap.t) (mnt : SSHostname.t) : string :=
  SSHostname.__str__ mnt +++ " -> " +++ Path.str (FuseWrap.mount_path fw)
  +++ "/" +++ SSHostname.__str__ mnt.

(** The line [list --all] prints for a host that is not mounted. *)
Definition unmounted_line (mnt : SSHostname.t) : string :=
  SSHostname.__str__ mnt +++ " -> empty".

(** A system like the sample one in which waiting for the child process
    is interrupted from the keyboard. *)
Definition interrupted_os : OS := {|
  expanduser := expanduser sample_os;
  open_read := open_read sample_os;
  makedirs := fun _ => None;
  rmdir := fun _ => None;
  popen := fun _ => None;
  communicate := fun _ => Some Interrupt
|}.

(** A system like the sample one in which directories cannot be removed. *)
Definition busy_os : OS := {|
  expanduser := expanduser sample_os;
  open_read := open_read sample_os;
  makedirs := fun _ => None;
  rmdir := fun _ => Some (OsFailure "Directory not empty");
  popen := fun _ => None;
  communicate := fun _ => None
|}.

Definition CR : string := String PyStr.carriage_return EmptyString.

(** A configuration whose lines end in the three ways a line can end. *)
Definition mixed_config : string :=
  "# servers" +++ CR +++ NL
  +++ "Host web" +++ CR
  +++ "    User admin" +++ NL
  +++ "Host db backup" +++ CR +++ NL
  +++ "    Host inner" +++ CR.

(** * Properties *)

Example split_example :
  PyStr.split "sshfs#h:/ /home/u/mnt/h fuse.sshfs rw 0 0" =
  ["sshfs#h:/"; "/home/u/mnt/h"; "fuse.sshfs"; "rw"; "0"; "0"].
Proof. reflexivity. Qed.

Example readlines_example :
  PyStr.readlines ("a" +++ NL +++ NL +++ "b") = ["a" +++ NL; NL; "b"].
Proof. reflexivity. Qed.

Example readlines_line_endings :
  PyStr.readlines ("a" +++ CR +++ NL +++ "b" +++ CR +++ "c" +++ NL +++ CR +++ "d")
  = ["a" +++ NL; "b" +++ NL; "c" +++ NL; NL; "d"].
Proof. reflexivity. Qed.

Example hostnames_carriage_return :
  FuseWrap._get_hostnames (Path.of_str "/home/u/.ssh/config")
    (fixture_os (inr "") (inr ("Host web" +++ CR +++ "Host db" +++ NL)))
  = ([], inr [web; db])
  /\ FuseWrap._get_hostnames (Path.of_str "/home/u/.ssh/config")
       (fixture_os (inr "") (inr ("Host" +++ CR +++ "web" +++ NL)))
     = ([], inl IndexError)
  /\ FuseWrap._get_fuse_mounts
       (fixture_os (inr ("a b c" +++ CR +++ "d" +++ NL)) (inr ""))
     = ([], inl IndexError).
Proof. repeat split. Qed.

Example path_examples :
  Path.str (Path.of_str "/home//u/./mnt/") = "/home/u/mnt"
  /\ Path.str (Path.truediv (Path.of_str "/home/u/mnt") "web") = "/home/u/mnt/web"
  /\ Path.str (Path.truediv (Path.of_str "/home/u/mnt") "/etc") = "/etc"
  /\ Path.str (Path.of_str "") = "."
  /\ Path.eqb (Path.of_str "/a/b/") (Path.of_str "/a//b") = true.
Proof. repeat split. Qed.

Example hostnames_example :
  FuseWrap._get_hostnames (Path.of_str "/home/u/.ssh/config")
    (fixture_os (inr "") (inr web_db_config)) = ([], inr [web; db]).
Proof. reflexivity. Qed.

(** ** Paths and host names *)

Section PathFacts.

Lemma list_eqb_refl (l : list string) : Path.list_eqb l l = true.
Proof.
  induction l as [|x l IH]; simpl; [reflexivity|].
  now rewrite String.eqb_refl.
Qed.

Lemma list_eqb_eq (l m : list string) : Path.list_eqb l m = true <-> l = m.
Proof.
  revert m; induction l as [|x l IH]; intros [|y m]; simpl; split;
    try discriminate; try reflexivity.
  - intros H. apply andb_true_iff in H as [Hx Hl].
    apply String.eqb_eq in Hx. apply IH in Hl. congruence.
  - intros H. injection H as -> ->.
    now rewrite String.eqb_refl, list_eqb_refl.
Qed.

Lemma list_eqb_last (l : list string) (x y : string) :
  Path.list_eqb (l ++ [x]) (l ++ [y]) = String.eqb x y.
Proof.
  induction l as [|z l IH]; simpl.
  - now rewrite andb_true_r.
  - now rewrite String.eqb_refl, IH.
Qed.

Lemma eqb_refl (p : Path.t) : Path.eqb p p = true.
Proof. apply list_eqb_refl. Qed.

(** Below one base, two plain names give equal paths only when they
    are the same name. *)
Lemma eqb_child (base : Path.t) (x y : string) :
  Path.eqb (Path.mk (Path.root base) (Path.parts base ++ [x]))
           (Path.mk (Path.root base) (Path.parts base ++ [y]))
  = String.eqb x y.
Proof.
  unfold Path.eqb, Path.cparts; simpl.
  destruct (String.eqb (Path.root base) "").
  - apply list_eqb_last.
  - simpl. rewrite String.eqb_refl. apply list_eqb_last.
Qed.

End PathFacts.

Section HostFacts.

Lemma is_mounted_loop_present (path : Path.t) (l : list FuseMount.t) :
  SSHostname.is_mounted_loop path l = true <-> Spec.present path l.
Proof.
  unfold Spec.present. induction l as [|fuse l IH]; simpl.
  - split; [discriminate | intros (f & [] & _)].
  - destruct (Path.eqb path (FuseMount.path fuse)) eqn:E.
    + split; [|reflexivity]. intros _. exists fuse. auto.
    + rewrite IH. split.
      * intros (f & Hin & Hf). exists f. auto.
      * intros (f & [<- | Hin] & Hf); [congruence | exists f; auto].
Qed.

(** A host name is its name: the class has no other field. *)
Lemma host_eta (h : SSHostname.t) : SSHostname.mk (SSHostname._name h) = h.
Proof. now destruct h. Qed.

Lemma name_eqb_eq (h k : SSHostname.t) :
  String.eqb (SSHostname._name h) (SSHostname._name k) = true <-> h = k.
Proof.
  rewrite String.eqb_eq. destruct h, k; simpl.
  split; congruence.
Qed.

(** Membership among host names never fails and is membership by name. *)
Lemma contains_host (l : list SSHostname.t) (h : SSHostname.t) :
  SSHostname.contains l (SSHostname.Host h) =
  inr (existsb (fun item => String.eqb (SSHostname._name h) (SSHostname._name item)) l).
Proof.
  induction l as [|item l IH]; simpl; [reflexivity|].
  destruct (String.eqb _ _); [reflexivity | exact IH].
Qed.

Lemma existsb_name_In (l : list SSHostname.t) (h : SSHostname.t) :
  existsb (fun item => String.eqb (SSHostname._name h) (SSHostname._name item)) l
  = true <-> In h l.
Proof.
  rewrite existsb_exists. split.
  - intros (x & Hin & Hx). apply name_eqb_eq in Hx. now subst.
  - intros Hin. exists h. split; [assumption | apply String.eqb_refl].
Qed.

Lemma existsb_name_not_In (l : list SSHostname.t) (h : SSHostname.t) :
  existsb (fun item => String.eqb (SSHostname._name h) (SSHostname._name item)) l
  = false <-> ~ In h l.
Proof.
  rewrite <- existsb_name_In. destruct (existsb _ l); split;
    congruence || (intros []; reflexivity) || auto.
Qed.

End HostFacts.

(** ** Host names: equality and classification *)

(** C8: comparing two host names never fails and answers true exactly
    when the two name strings are equal; comparing a host name with a value
    of any other kind raises [TypeError] and returns nothing. *)
Theorem eq_by_name_else_type_error (self : SSHostname.t) :
  (forall other : SSHostname.t,
      exists b : bool,
        SSHostname.__eq__ self (SSHostname.Host other) = inr b
        /\ (b = true <-> SSHostname._name self = SSHostname._name other))
  /\ (forall obj : SSHostname.object,
         (forall other, obj <> SSHostname.Host other) ->
         SSHostname.__eq__ self obj = inl (TypeError "Wants SSHostname")).
Proof.
  split.
  - intros other. exists (String.eqb (SSHostname._name other) (SSHostname._name self)).
    split; [reflexivity|].
    rewrite String.eqb_eq. split; congruence.
  - intros obj Hother. destruct obj; try reflexivity.
    now contradiction (Hother h).
Qed.

Lemma eq_by_name_else_type_error_witness :
  (exists b : bool,
      SSHostname.__eq__ web (SSHostname.Host db) = inr b
      /\ (b = true <-> SSHostname._name web = SSHostname._name db))
  /\ SSHostname.__eq__ web (SSHostname.Str "web") = inl (TypeError "Wants SSHostname").
Proof.
  split.
  - exact (proj1 (eq_by_name_else_type_error web) db).
  - apply (proj2 (eq_by_name_else_type_error web)). intros other; discriminate.
Defined.

(** C6: a host name is mounted exactly when its mount root, the mount
    base joined with its name, equals the path of some record of the
    snapshot. *)
Theorem is_mounted_iff_root_present
    (alias : SSHostname.t) (mount_base : Path.t) (snapshot : list FuseMount.t) :
  SSHostname.is_mounted alias mount_base snapshot = true
  <-> Spec.present (Path.truediv mount_base (SSHostname._name alias)) snapshot.
Proof.
  unfold SSHostname.is_mounted, SSHostname.get_path.
  apply is_mounted_loop_present.
Qed.

Section Partition.

Context {A : Type} (f : A -> bool).

Lemma filter_split_perm (l : list A) :
  Permutation (filter f l ++ filter (fun a => negb (f a)) l) l.
Proof.
  induction l as [|a l IH]; simpl; [constructor|].
  destruct (f a); simpl.
  - now constructor.
  - symmetry. apply Permutation_cons_app. now symmetry.
Qed.

Lemma filter_split_disjoint (l : list A) (a : A) :
  In a (filter f l) -> ~ In a (filter (fun a => negb (f a)) l).
Proof.
  rewrite !filter_In. intros [_ Ht] [_ Hf].
  rewrite Ht in Hf. discriminate.
Qed.

End Partition.

(** C5: for every alias list and every snapshot, the mounted and the
    unmounted aliases together are the configured aliases, each as often
    as it is configured, and no alias is in both lists. *)
Theorem mounted_unmounted_partition (fw : FuseWrap.t) :
  Permutation (FuseWrap.get_mounted fw ++ FuseWrap.get_unmounted fw)
              (FuseWrap._hosts fw)
  /\ (forall alias,
         In alias (FuseWrap.get_mounted fw) ->
         In alias (FuseWrap.get_unmounted fw) -> False).
Proof.
  unfold FuseWrap.get_mounted, FuseWrap.get_unmounted. split.
  - apply filter_split_perm.
  - intros alias Hm Hu. exact (filter_split_disjoint _ _ _ Hm Hu).
Qed.

(** C9: the configuration [Host web], [Host db] gives the hosts
    [web; db]; with an empty snapshot none is mounted and both are
    unmounted, in that order; with the single record [base/web] the
    mounted hosts are [web], for every mount base, and also when both
    files are read by the constructor. *)
Theorem list_web_db (base cfg : Path.t) :
  let empty := FuseWrap.mk base cfg [] [web; db] in
  let one := FuseWrap.mk base cfg [FuseMount.mk (Path.truediv base "web")] [web; db] in
  FuseWrap.hostnames_loop (PyStr.readlines web_db_config) [] = inr [web; db]
  /\ FuseWrap.get_mounted empty = []
  /\ FuseWrap.get_unmounted empty = [web; db]
  /\ FuseWrap.get_mounted one = [web]
  /\ (exists fw,
         FuseWrap.__init__ "base"
           (fixture_os (inr ("web:/ base/web fuse.sshfs rw,nosuid 0 0" +++ NL))
                       (inr web_db_config)) = ([], inr fw)
         /\ FuseWrap.get_mounted fw = [web]).
Proof.
  intros empty one. split; [reflexivity|].
  split; [reflexivity|]. split; [reflexivity|]. split.
  - unfold FuseWrap.get_mounted, SSHostname.is_mounted, SSHostname.get_path; simpl.
    change (Path.truediv base "web")
      with (Path.mk (Path.root base) (Path.parts base ++ ["web"])).
    change (Path.truediv base "db")
      with (Path.mk (Path.root base) (Path.parts base ++ ["db"])).
    now rewrite !eqb_child.
  - eexists. split; reflexivity.
Qed.

Lemma mounted_unmounted_partition_witness :
  let fw := FuseWrap.mk (Path.of_str "/m") (Path.of_str "/c")
              [FuseMount.mk (Path.of_str "/m/web")] [web; db] in
  Permutation ([web] ++ [db]) [web; db]
  /\ (In web (FuseWrap.get_unmounted fw) -> False).
Proof.
  intros fw. split.
  - exact (proj1 (mounted_unmounted_partition fw)).
  - apply (proj2 (mounted_unmounted_partition fw) web). simpl. auto.
Defined.

(** ** Reading the mount table and the configuration file *)

Section Readers.

Lemma index_in_range {A : Type} (l : list A) (i : nat) (d : A) :
  i < length l -> PyStr.index l i = Some (nth i l d).
Proof. intros H. unfold PyStr.index. now apply nth_error_nth'. Qed.

Lemma index_out_of_range {A : Type} (l : list A) (i : nat) :
  length l <= i -> PyStr.index l i = None.
Proof. intros H. unfold PyStr.index. now apply nth_error_None. Qed.

Lemma fuse_mounts_loop_ok (lines : list string) :
  Spec.lines_have_fields 3 lines ->
  forall acc,
    FuseWrap.fuse_mounts_loop lines acc =
    inr (acc ++ map (fun line => FuseMount.mk (Path.of_str (Spec.field line 1)))
                    (filter Spec.is_sshfs_line lines)).
Proof.
  unfold Spec.lines_have_fields.
  induction 1 as [|line lines Hline _ IH]; intros acc;
    cbn [FuseWrap.fuse_mounts_loop filter map].
  - now rewrite app_nil_r.
  - rewrite (index_in_range _ 2 "") by lia.
    rewrite (index_in_range _ 1 "") by lia.
    unfold Spec.is_sshfs_line, Spec.field.
    destruct (String.eqb (nth 2 (PyStr.split line) "") "fuse.sshfs");
      cbn [filter map].
    + rewrite IH, <- app_assoc. reflexivity.
    + apply IH.
Qed.

Lemma fuse_mounts_loop_short (lines : list string) :
  Exists (fun line => length (PyStr.split line) < 3) lines ->
  forall acc, FuseWrap.fuse_mounts_loop lines acc = inl IndexError.
Proof.
  induction 1 as [line lines Hline | line lines _ IH]; intros acc;
    cbn [FuseWrap.fuse_mounts_loop].
  - now rewrite index_out_of_range by lia.
  - destruct (PyStr.index (PyStr.split line) 2) as [fstype|]; [|reflexivity].
    destruct (String.eqb fstype "fuse.sshfs"); [|apply IH].
    destruct (PyStr.index (PyStr.split line) 1); [apply IH | reflexivity].
Qed.

Lemma get_fuse_mounts_unfold (os : OS) (text : string) :
  open_read os "/proc/mounts" = inr text ->
  FuseWrap._get_fuse_mounts os =
  ([], FuseWrap.fuse_mounts_loop (PyStr.readlines text) []).
Proof.
  intros Hopen. unfold FuseWrap._get_fuse_mounts, bind, open, lift.
  now rewrite Hopen.
Qed.

Lemma hostnames_loop_ok (lines : list string) :
  Spec.host_lines_have_alias lines ->
  forall acc,
    FuseWrap.hostnames_loop lines acc =
    inr (acc ++ map (fun line => SSHostname.mk (Spec.field line 1))
                    (filter (fun line => PyStr.startswith line "Host") lines)).
Proof.
  unfold Spec.host_lines_have_alias.
  induction 1 as [|line lines Hline _ IH]; intros acc;
    cbn [FuseWrap.hostnames_loop filter map].
  - now rewrite app_nil_r.
  - destruct (PyStr.startswith line "Host"); cbn [filter map]; [|apply IH].
    rewrite (index_in_range _ 1 "") by (apply Hline; reflexivity).
    rewrite IH, <- app_assoc. reflexivity.
Qed.

Lemma hostnames_loop_short (lines : list string) :
  Exists (fun line => PyStr.startswith line "Host" = true
                      /\ length (PyStr.split line) < 2) lines ->
  forall acc, FuseWrap.hostnames_loop lines acc = inl IndexError.
Proof.
  induction 1 as [line lines [Hhost Hline] | line lines _ IH];
    intros acc; cbn [FuseWrap.hostnames_loop].
  - rewrite Hhost.
    now rewrite index_out_of_range by lia.
  - destruct (PyStr.startswith line "Host"); [|apply IH].
    destruct (PyStr.index (PyStr.split line) 1); [apply IH | reflexivity].
Qed.

(** On well-formed lines the code's test on the first characters and
    the keyword as the first token select the same lines. *)
Lemma well_formed_host_lines (lines : list string) :
  Spec.host_lines_well_formed lines ->
  Spec.host_lines_have_alias lines
  /\ filter (fun line => PyStr.startswith line "Host") lines
     = filter Spec.is_host_line lines.
Proof.
  unfold Spec.host_lines_well_formed, Spec.host_lines_have_alias.
  induction 1 as [|line lines Hline _ [IHa IHf]]; [split; constructor|].
  split.
  - constructor; [|assumption]. intros Hstart. now apply Hline.
  - assert (Hsame : Spec.is_host_line line = PyStr.startswith line "Host").
    { unfold Spec.is_host_line.
      destruct (PyStr.startswith line "Host"); [|reflexivity].
      destruct (Hline eq_refl) as [-> _]. reflexivity. }
    cbn [filter]. now rewrite Hsame, IHf.
Qed.

Lemma get_hostnames_unfold (os : OS) (path : Path.t) (text : string) :
  open_read os (Path.str path) = inr text ->
  FuseWrap._get_hostnames path os =
  ([], FuseWrap.hostnames_loop (PyStr.readlines text) []).
Proof.
  intros Hopen. unfold FuseWrap._get_hostnames, bind, open, lift.
  now rewrite Hopen.
Qed.

End Readers.

(** C7, as amended: when the mount table can be read and every one of its
    lines has at least three whitespace-separated fields, the Mount
    Inspector returns exactly the records of the lines whose third field
    is [fuse.sshfs], one per such line and in line order, each holding
    the path of the line's second field. *)
Theorem get_fuse_mounts_records (os : OS) (text : string) :
  open_read os "/proc/mounts" = inr text ->
  Spec.lines_have_fields 3 (PyStr.readlines text) ->
  FuseWrap._get_fuse_mounts os = ([], inr (Spec.mount_records text)).
Proof.
  intros Hopen Hfields.
  rewrite (get_fuse_mounts_unfold os text Hopen).
  now rewrite (fuse_mounts_loop_ok _ Hfields).
Qed.

Lemma get_fuse_mounts_records_witness :
  FuseWrap._get_fuse_mounts (fixture_os (inr sample_table) (inr "")) =
  ([], inr [FuseMount.mk (Path.of_str "/home/u/mnt/web");
            FuseMount.mk (Path.of_str "/home/u/mnt/db")]).
Proof.
  apply (get_fuse_mounts_records (fixture_os (inr sample_table) (inr ""))
           sample_table).
  - reflexivity.
  - unfold Spec.lines_have_fields. vm_compute. repeat constructor.
Defined.

(** C7 as the claim states it fails on a table made of one empty line:
    the specification's sequence is empty there, and the inspector
    raises [IndexError] instead of returning it. *)
Lemma get_fuse_mounts_empty_line :
  open_read (fixture_os (inr NL) (inr "")) "/proc/mounts" = inr NL
  /\ Spec.mount_records NL = []
  /\ FuseWrap._get_fuse_mounts (fixture_os (inr NL) (inr "")) = ([], inl IndexError).
Proof. repeat split. Qed.

(** C10: reading the mount table is not total over table texts.  When
    every line has at least three whitespace-separated fields it returns
    a sequence; when some line has fewer, for one an empty line, it
    raises [IndexError] and returns nothing. *)
Theorem get_fuse_mounts_partial (os : OS) (text : string) :
  open_read os "/proc/mounts" = inr text ->
  (Spec.lines_have_fields 3 (PyStr.readlines text) ->
   exists records, FuseWrap._get_fuse_mounts os = ([], inr records))
  /\ (Exists (fun line => length (PyStr.split line) < 3) (PyStr.readlines text) ->
      FuseWrap._get_fuse_mounts os = ([], inl IndexError))
  /\ (In NL (PyStr.readlines text) ->
      FuseWrap._get_fuse_mounts os = ([], inl IndexError)).
Proof.
  intros Hopen. rewrite (get_fuse_mounts_unfold os text Hopen).
  split; [|split].
  - intros Hfields. eexists. now rewrite (fuse_mounts_loop_ok _ Hfields).
  - intros Hshort. now rewrite (fuse_mounts_loop_short _ Hshort).
  - intros Hempty. rewrite fuse_mounts_loop_short; [reflexivity|].
    apply Exists_exists. exists NL. split; [assumption|]. vm_compute. lia.
Qed.

Lemma get_fuse_mounts_partial_witness :
  (exists records,
      FuseWrap._get_fuse_mounts (fixture_os (inr sample_table) (inr ""))
      = ([], inr records))
  /\ FuseWrap._get_fuse_mounts
       (fixture_os (inr ("tmpfs /tmp" +++ NL +++ sample_table)) (inr ""))
     = ([], inl IndexError)
  /\ FuseWrap._get_fuse_mounts
       (fixture_os (inr (sample_table +++ NL)) (inr ""))
     = ([], inl IndexError).
Proof.
  split; [|split].
  - apply (proj1 (get_fuse_mounts_partial
                    (fixture_os (inr sample_table) (inr "")) sample_table
                    eq_refl)).
    unfold Spec.lines_have_fields. vm_compute. repeat constructor.
  - apply (proj1 (proj2 (get_fuse_mounts_partial
                    (fixture_os (inr ("tmpfs /tmp" +++ NL +++ sample_table)) (inr ""))
                    ("tmpfs /tmp" +++ NL +++ sample_table) eq_refl))).
    apply Exists_cons_hd. vm_compute. lia.
  - apply (proj2 (proj2 (get_fuse_mounts_partial
                    (fixture_os (inr (sample_table +++ NL)) (inr ""))
                    (sample_table +++ NL) eq_refl))).
    vm_compute. tauto.
Defined.

(** C2, as amended: when the configuration file can be read and every
    line whose text starts with [Host] has that keyword as its whole first
    token and at least one more token, the Config Reader returns the
    aliases obtained by taking, for each line that begins with the
    keyword and for no other line, the token that follows the keyword, in
    file order. *)
Theorem get_hostnames_aliases (os : OS) (path : Path.t) (text : string) :
  open_read os (Path.str path) = inr text ->
  Spec.host_lines_well_formed (PyStr.readlines text) ->
  FuseWrap._get_hostnames path os = ([], inr (Spec.host_aliases text)).
Proof.
  intros Hopen Hlines.
  destruct (well_formed_host_lines _ Hlines) as [Halias Hsame].
  rewrite (get_hostnames_unfold os path text Hopen).
  rewrite (hostnames_loop_ok _ Halias).
  unfold Spec.host_aliases. now rewrite Hsame.
Qed.

Lemma get_hostnames_aliases_witness :
  FuseWrap._get_hostnames (Path.of_str "/home/u/.ssh/config")
    (fixture_os (inr "") (inr mixed_config)) = ([], inr [web; db]).
Proof.
  apply (get_hostnames_aliases (fixture_os (inr "") (inr mixed_config))
           (Path.of_str "/home/u/.ssh/config") mixed_config eq_refl).
  unfold Spec.host_lines_well_formed. vm_compute.
  repeat constructor; discriminate.
Defined.

(** C2 as the claim states it fails on a file whose only line is the
    keyword alone: the file can be read, and the reader raises
    [IndexError] instead of returning a sequence of aliases. *)
Lemma get_hostnames_bare_keyword :
  open_read (fixture_os (inr "") (inr ("Host" +++ NL))) "/home/u/.ssh/config"
  = inr ("Host" +++ NL)
  /\ FuseWrap._get_hostnames (Path.of_str "/home/u/.ssh/config")
       (fixture_os (inr "") (inr ("Host" +++ NL))) = ([], inl IndexError).
Proof. split; reflexivity. Qed.

(** ** Mounting and unmounting *)

Section Controller.

Variables (fw : FuseWrap.t) (host : SSHostname.t) (os : OS).

Lemma existsb_filter_named (p : SSHostname.t -> bool) (l : list SSHostname.t) :
  existsb (FuseWrap.named host) (filter p l)
  = existsb (FuseWrap.named host) l && p host.
Proof.
  induction l as [|item l IH]; simpl; [reflexivity|].
  destruct (FuseWrap.named host item) eqn:E.
  - assert (item = host) as -> by (symmetry; apply name_eqb_eq; exact E).
    destruct (p host) eqn:P; simpl.
    + now rewrite E.
    + rewrite IH. apply andb_false_r.
  - destruct (p item); simpl; rewrite ?E; exact IH.
Qed.

Lemma after_nothing {A : Type} (x : list event * result A) :
  (let (t, r) := x in ([] ++ t, r)) = x.
Proof. now destruct x. Qed.

Lemma check_host_run :
  FuseWrap._check_host fw host os =
  if FuseWrap.known fw host then ([], inr tt)
  else ([], inl (FuseWrapException (FuseWrap.unknown_host_msg fw host))).
Proof.
  unfold FuseWrap._check_host, FuseWrap.known, bind, lift.
  rewrite contains_host. fold (FuseWrap.named host).
  now destruct (existsb (FuseWrap.named host) (FuseWrap._hosts fw)).
Qed.

Lemma mount_run :
  FuseWrap.mount fw host os =
  if negb (FuseWrap.known fw host) then
    ([], inl (FuseWrapException (FuseWrap.unknown_host_msg fw host)))
  else if FuseWrap.mounted fw host then
    ([], inl (FuseWrapException
                (FuseWrap.already_mounted_msg host (FuseWrap.mount_root fw host))))
  else FuseWrap.do_mount fw host os.
Proof.
  unfold FuseWrap.mount. unfold bind at 1. rewrite check_host_run.
  destruct (FuseWrap.known fw host) eqn:Hknown; [|reflexivity].
  cbn [negb]. unfold bind at 1, lift. rewrite contains_host.
  fold (FuseWrap.named host).
  unfold FuseWrap.get_mounted. rewrite existsb_filter_named.
  fold (FuseWrap.known fw host). rewrite Hknown.
  cbn [andb]. fold (FuseWrap.mounted fw host). fold (FuseWrap.mount_root fw host).
  destruct (FuseWrap.mounted fw host); [reflexivity|].
  now rewrite !after_nothing.
Qed.

Lemma umount_run :
  FuseWrap.umount fw host os =
  if negb (FuseWrap.known fw host) then
    ([], inl (FuseWrapException (FuseWrap.unknown_host_msg fw host)))
  else if negb (FuseWrap.mounted fw host) then
    ([], inl (FuseWrapException (FuseWrap.already_unmounted_msg host)))
  else FuseWrap.do_umount fw host os.
Proof.
  unfold FuseWrap.umount. unfold bind at 1. rewrite check_host_run.
  destruct (FuseWrap.known fw host) eqn:Hknown; [|reflexivity].
  cbn [negb]. unfold bind at 1, lift. rewrite contains_host.
  fold (FuseWrap.named host).
  unfold FuseWrap.get_unmounted. rewrite existsb_filter_named.
  fold (FuseWrap.known fw host). rewrite Hknown.
  cbn [andb]. fold (FuseWrap.mounted fw host). fold (FuseWrap.mount_root fw host).
  destruct (FuseWrap.mounted fw host); [|reflexivity].
  cbn [negb].
  now rewrite !after_nothing.
Qed.

Lemma known_In : FuseWrap.known fw host = true <-> In host (FuseWrap._hosts fw).
Proof. apply existsb_name_In. Qed.

Lemma known_not_In : FuseWrap.known fw host = false <-> ~ In host (FuseWrap._hosts fw).
Proof. apply existsb_name_not_In. Qed.

Lemma mounted_present :
  FuseWrap.mounted fw host = true
  <-> Spec.present (FuseWrap.mount_root fw host) (FuseWrap._fuse_mounts fw).
Proof. apply is_mounted_loop_present. Qed.

Lemma mounted_not_present :
  FuseWrap.mounted fw host = false
  <-> ~ Spec.present (FuseWrap.mount_root fw host) (FuseWrap._fuse_mounts fw).
Proof.
  rewrite <- mounted_present.
  destruct (FuseWrap.mounted fw host); split; congruence.
Qed.

End Controller.

Section Calls.

Variables (fw : FuseWrap.t) (host : SSHostname.t) (os : OS).

Lemma do_mount_run :
  let mount_point := FuseWrap.mount_root fw host in
  let args := FuseWrap.sshfs_args fw host in
  FuseWrap.do_mount fw host os =
  match makedirs os mount_point with
  | Some f => ([Makedirs mount_point], inl (exn_of_failure f))
  | None =>
      match popen os args with
      | Some f =>
          ([Makedirs mount_point; Stdout (FuseWrap.quoted args); Popen args],
           inl (exn_of_failure f))
      | None =>
          ([Makedirs mount_point; Stdout (FuseWrap.quoted args); Popen args;
            Communicate args],
           match communicate os args with
           | Some f => inl (exn_of_failure f)
           | None => inr tt
           end)
      end
  end.
Proof.
  intros mount_point args.
  unfold FuseWrap.do_mount, bind, call, print.
  fold mount_point. fold args.
  destruct (makedirs os mount_point); [reflexivity|].
  destruct (popen os args); [reflexivity|].
  destruct (communicate os args); reflexivity.
Qed.

Lemma do_umount_run :
  let mount_point := FuseWrap.mount_root fw host in
  let args := FuseWrap.fusermount_args fw host in
  FuseWrap.do_umount fw host os =
  match popen os args with
  | Some f => ([Stdout (FuseWrap.quoted args); Popen args], inl (exn_of_failure f))
  | None =>
      match communicate os args with
      | Some f =>
          ([Stdout (FuseWrap.quoted args); Popen args; Communicate args],
           inl (exn_of_failure f))
      | None =>
          ([Stdout (FuseWrap.quoted args); Popen args; Communicate args;
            Rmdir mount_point],
           match rmdir os mount_point with
           | Some f => inl (exn_of_failure f)
           | None => inr tt
           end)
      end
  end.
Proof.
  intros mount_point args.
  unfold FuseWrap.do_umount, bind, call, print.
  fold mount_point. fold args.
  destruct (popen os args); [reflexivity|].
  destruct (communicate os args); [reflexivity|].
  destruct (rmdir os mount_point); reflexivity.
Qed.

End Calls.

(** C3: [mount] of an alias that is not configured raises the
    unknown-host error and makes no call; of a configured alias whose
    mount root is in the snapshot, it raises the already-mounted error and
    makes no call; otherwise its first call creates the mount-root
    directory, and once that has succeeded it runs [sshfs] with the remote
    spec [alias:/] and the mount root, the mount base joined with the
    alias name, and waits for it. *)
Theorem mount_cases (fw : FuseWrap.t) (host : SSHostname.t) (os : OS) :
  let mount_root := Path.truediv (FuseWrap._mount_path fw) (SSHostname._name host) in
  let remote_spec := SSHostname._name host +++ ":/" in
  let args := ["sshfs"; remote_spec; Path.str mount_root] in
  (~ In host (FuseWrap._hosts fw) ->
   FuseWrap.mount fw host os =
   ([], inl (FuseWrapException (FuseWrap.unknown_host_msg fw host))))
  /\ (In host (FuseWrap._hosts fw) ->
      Spec.present mount_root (FuseWrap._fuse_mounts fw) ->
      FuseWrap.mount fw host os =
      ([], inl (FuseWrapException (FuseWrap.already_mounted_msg host mount_root))))
  /\ (In host (FuseWrap._hosts fw) ->
      ~ Spec.present mount_root (FuseWrap._fuse_mounts fw) ->
      exists rest outcome,
        FuseWrap.mount fw host os = (Makedirs mount_root :: rest, outcome)
        /\ (makedirs os mount_root = None ->
            exists rest', rest = Stdout (FuseWrap.quoted args) :: Popen args :: rest')
        /\ (makedirs os mount_root = None -> popen os args = None ->
            communicate os args = None ->
            rest = [Stdout (FuseWrap.quoted args); Popen args; Communicate args]
            /\ outcome = inr tt)).
Proof.
  intros mount_root remote_spec args. rewrite mount_run.
  split; [|split].
  - intros Hunknown. apply known_not_In in Hunknown. now rewrite Hunknown.
  - intros Hknown Hpresent. apply known_In in Hknown.
    apply mounted_present in Hpresent. now rewrite Hknown, Hpresent.
  - intros Hknown Habsent. apply known_In in Hknown.
    apply mounted_not_present in Habsent. rewrite Hknown, Habsent. cbn [negb].
    rewrite do_mount_run.
    change (FuseWrap.mount_root fw host) with mount_root.
    change (FuseWrap.sshfs_args fw host) with args.
    destruct (makedirs os mount_root) as [f|].
    { do 2 eexists. split; [reflexivity|]. split; discriminate. }
    destruct (popen os args) as [f|].
    { do 2 eexists. split; [reflexivity|]. split; [eauto | discriminate]. }
    do 2 eexists. split; [reflexivity|]. split; [eauto|].
    intros _ _ ->. auto.
Qed.

(** C4: [umount] of an alias that is not configured raises the
    unknown-host error and makes no call; of a configured alias that is
    not mounted, it raises the already-unmounted error and makes no call;
    otherwise it runs [fusermount -u] on the mount root, and once the
    process has started and been waited for it removes the mount-root
    directory, as its last call. *)
Theorem umount_cases (fw : FuseWrap.t) (host : SSHostname.t) (os : OS) :
  let mount_root := Path.truediv (FuseWrap._mount_path fw) (SSHostname._name host) in
  let args := ["fusermount"; "-u"; Path.str mount_root] in
  (~ In host (FuseWrap._hosts fw) ->
   FuseWrap.umount fw host os =
   ([], inl (FuseWrapException (FuseWrap.unknown_host_msg fw host))))
  /\ (In host (FuseWrap._hosts fw) ->
      ~ Spec.present mount_root (FuseWrap._fuse_mounts fw) ->
      FuseWrap.umount fw host os =
      ([], inl (FuseWrapException (FuseWrap.already_unmounted_msg host))))
  /\ (In host (FuseWrap._hosts fw) ->
      Spec.present mount_root (FuseWrap._fuse_mounts fw) ->
      exists rest outcome,
        FuseWrap.umount fw host os =
        (Stdout (FuseWrap.quoted args) :: Popen args :: rest, outcome)
        /\ (popen os args = None -> communicate os args = None ->
            rest = [Communicate args; Rmdir mount_root]
            /\ outcome = match rmdir os mount_root with
                         | Some f => inl (exn_of_failure f)
                         | None => inr tt
                         end)).
Proof.
  intros mount_root args. rewrite umount_run.
  split; [|split].
  - intros Hunknown. apply known_not_In in Hunknown. now rewrite Hunknown.
  - intros Hknown Habsent. apply known_In in Hknown.
    apply mounted_not_present in Habsent. now rewrite Hknown, Habsent.
  - intros Hknown Hpresent. apply known_In in Hknown.
    apply mounted_present in Hpresent. rewrite Hknown, Hpresent. cbn [negb].
    rewrite do_umount_run.
    change (FuseWrap.mount_root fw host) with mount_root.
    change (FuseWrap.fusermount_args fw host) with args.
    destruct (popen os args) as [f|].
    { do 2 eexists. split; [reflexivity | discriminate]. }
    destruct (communicate os args) as [f|].
    { do 2 eexists. split; [reflexivity | discriminate]. }
    do 2 eexists. split; [reflexivity|]. auto.
Qed.

Lemma mount_cases_witness :
  FuseWrap.mount sample_fw (SSHostname.mk "mail") sample_os =
  ([], inl (FuseWrapException "There is no mail hostname in /home/u/.ssh/config"))
  /\ FuseWrap.mount sample_fw web sample_os =
     ([], inl (FuseWrapException "Host web already mounted in /home/u/mnt/web"))
  /\ FuseWrap.mount sample_fw db sample_os =
     ([Makedirs (Path.of_str "/home/u/mnt/db");
       Stdout (FuseWrap.quoted ["sshfs"; "db:/"; "/home/u/mnt/db"]);
       Popen ["sshfs"; "db:/"; "/home/u/mnt/db"];
       Communicate ["sshfs"; "db:/"; "/home/u/mnt/db"]], inr tt).
Proof.
  split; [|split].
  - apply (proj1 (mount_cases sample_fw (SSHostname.mk "mail") sample_os)).
    simpl. intros [H|[H|[]]]; discriminate H.
  - apply (proj1 (proj2 (mount_cases sample_fw web sample_os))).
    + simpl. auto.
    + exists (FuseMount.mk (Path.of_str "/home/u/mnt/web")).
      split; [left|]; reflexivity.
  - destruct (proj2 (proj2 (mount_cases sample_fw db sample_os)))
      as (rest & outcome & Hrun & _ & Hall).
    + simpl. auto.
    + intros (fuse & [<-|[]] & Heq). discriminate Heq.
    + destruct (Hall eq_refl eq_refl eq_refl) as [-> ->]. exact Hrun.
Defined.

Lemma umount_cases_witness :
  FuseWrap.umount sample_fw (SSHostname.mk "mail") sample_os =
  ([], inl (FuseWrapException "There is no mail hostname in /home/u/.ssh/config"))
  /\ FuseWrap.umount sample_fw db sample_os =
     ([], inl (FuseWrapException "Host db already unmounted"))
  /\ FuseWrap.umount sample_fw web sample_os =
     ([Stdout (FuseWrap.quoted ["fusermount"; "-u"; "/home/u/mnt/web"]);
       Popen ["fusermount"; "-u"; "/home/u/mnt/web"];
       Communicate ["fusermount"; "-u"; "/home/u/mnt/web"];
       Rmdir (Path.of_str "/home/u/mnt/web")], inr tt).
Proof.
  split; [|split].
  - apply (proj1 (umount_cases sample_fw (SSHostname.mk "mail") sample_os)).
    simpl. intros [H|[H|[]]]; discriminate H.
  - apply (proj1 (proj2 (umount_cases sample_fw db sample_os))).
    + simpl. auto.
    + intros (fuse & [<-|[]] & Heq). discriminate Heq.
  - destruct (proj2 (proj2 (umount_cases sample_fw web sample_os)))
      as (rest & outcome & Hrun & Hall).
    + simpl. auto.
    + exists (FuseMount.mk (Path.of_str "/home/u/mnt/web")).
      split; [left|]; reflexivity.
    + destruct (Hall eq_refl eq_refl) as [-> ->]. exact Hrun.
Defined.

(** ** The top level *)

Section TopLevel.

Variables (os : OS) (args : Args).

Lemma init_table_unreadable (msg : string) :
  open_read os "/proc/mounts" = inl (OsFailure msg) ->
  FuseWrap.__init__ (mount_dir_path args) os = ([], inl (OSError msg)).
Proof.
  intros Hopen.
  unfold FuseWrap.__init__, FuseWrap._get_fuse_mounts, bind, open.
  now rewrite Hopen.
Qed.

Lemma init_config_unreadable (msg : string) (records : list FuseMount.t) :
  FuseWrap._get_fuse_mounts os = ([], inr records) ->
  open_read os (Path.str (FuseWrap.DEFAULT_SSH_CFG_PATH os)) = inl (OsFailure msg) ->
  FuseWrap.__init__ (mount_dir_path args) os = ([], inl (OSError msg)).
Proof.
  intros Htable Hopen.
  unfold FuseWrap.__init__. unfold bind at 1. rewrite Htable.
  unfold FuseWrap._get_hostnames, bind, open.
  now rewrite Hopen.
Qed.

Lemma run_job_init_raises (c : command) (t : list event) (e : exn) :
  FuseWrap.__init__ (mount_dir_path args) os = (t, inl e) ->
  run_job args c os = (t, inl e).
Proof.
  intros Hinit.
  destruct c; unfold run_job, job_list, job_mount, job_umount;
    unfold bind at 1; now rewrite Hinit.
Qed.

Lemma run_job_mount (fw : FuseWrap.t) (name : string) :
  FuseWrap.__init__ (mount_dir_path args) os = ([], inr fw) ->
  run_job args (CmdMount name) os = FuseWrap.mount fw (SSHostname.mk name) os.
Proof.
  intros Hinit. unfold run_job, job_mount. unfold bind at 1.
  rewrite Hinit. apply after_nothing.
Qed.

Lemma run_job_umount (fw : FuseWrap.t) (name : string) :
  FuseWrap.__init__ (mount_dir_path args) os = ([], inr fw) ->
  run_job args (CmdUmount name) os = FuseWrap.umount fw (SSHostname.mk name) os.
Proof.
  intros Hinit. unfold run_job, job_umount. unfold bind at 1.
  rewrite Hinit. apply after_nothing.
Qed.

Lemma main_recovers (c : command) (t : list event) (msg : string) :
  job args = Some c ->
  run_job args c os = (t, inl (FuseWrapException msg)) ->
  main args os = (t ++ [Stderr ("ERR: " +++ msg)], inr tt).
Proof.
  intros Hjob Hrun. unfold main. rewrite Hjob.
  unfold try_except. now rewrite Hrun.
Qed.

Lemma main_propagates_os_error (c : command) (t : list event) (msg : string) :
  job args = Some c ->
  run_job args c os = (t, inl (OSError msg)) ->
  main args os = (t, inl (OSError msg)).
Proof.
  intros Hjob Hrun. unfold main. rewrite Hjob.
  unfold try_except. now rewrite Hrun.
Qed.

End TopLevel.

(** C1, as amended: the errors the tool raises itself, which are the
    unknown host, the already mounted and the already unmounted alias,
    all of them a [FuseWrapException], are recovered by [main] in every
    run in which one occurs and rendered by one print of [ERR: message]
    to standard error; a mount table or a configuration file that cannot
    be opened raises [OSError], which [main] does not recover: it
    propagates and nothing is printed. *)
Theorem main_error_handling (os : OS) (args : Args) (c : command) :
  job args = Some c ->
  (forall t msg,
      run_job args c os = (t, inl (FuseWrapException msg)) ->
      main args os = (t ++ [Stderr ("ERR: " +++ msg)], inr tt))
  /\ (forall fw name,
         FuseWrap.__init__ (mount_dir_path args) os = ([], inr fw) ->
         let host := SSHostname.mk name in
         let mount_root := Path.truediv (FuseWrap._mount_path fw) name in
         (c = CmdMount name \/ c = CmdUmount name ->
          ~ In host (FuseWrap._hosts fw) ->
          main args os =
          ([Stderr ("ERR: " +++ FuseWrap.unknown_host_msg fw host)], inr tt))
         /\ (c = CmdMount name ->
             In host (FuseWrap._hosts fw) ->
             Spec.present mount_root (FuseWrap._fuse_mounts fw) ->
             main args os =
             ([Stderr ("ERR: " +++ FuseWrap.already_mounted_msg host mount_root)],
              inr tt))
         /\ (c = CmdUmount name ->
             In host (FuseWrap._hosts fw) ->
             ~ Spec.present mount_root (FuseWrap._fuse_mounts fw) ->
             main args os =
             ([Stderr ("ERR: " +++ FuseWrap.already_unmounted_msg host)], inr tt)))
  /\ (forall msg,
         open_read os "/proc/mounts" = inl (OsFailure msg) ->
         main args os = ([], inl (OSError msg)))
  /\ (forall msg records,
         FuseWrap._get_fuse_mounts os = ([], inr records) ->
         open_read os (Path.str (FuseWrap.DEFAULT_SSH_CFG_PATH os))
         = inl (OsFailure msg) ->
         main args os = ([], inl (OSError msg))).
Proof.
  intros Hjob. split; [|split; [|split]].
  - intros t msg Hrun. now apply (main_recovers os args c).
  - intros fw name Hinit host mount_root. split; [|split].
    + intros Hc Hunknown. apply known_not_In in Hunknown.
      apply (main_recovers os args c [] _ Hjob).
      destruct Hc as [-> | ->].
      * rewrite (run_job_mount os args fw name Hinit), mount_run.
        fold host. now rewrite Hunknown.
      * rewrite (run_job_umount os args fw name Hinit), umount_run.
        fold host. now rewrite Hunknown.
    + intros -> Hknown Hpresent. apply known_In in Hknown.
      apply (mounted_present fw host) in Hpresent.
      apply (main_recovers os args _ [] _ Hjob).
      rewrite (run_job_mount os args fw name Hinit), mount_run.
      fold host. now rewrite Hknown, Hpresent.
    + intros -> Hknown Habsent. apply known_In in Hknown.
      apply (mounted_not_present fw host) in Habsent.
      apply (main_recovers os args _ [] _ Hjob).
      rewrite (run_job_umount os args fw name Hinit), umount_run.
      fold host. now rewrite Hknown, Habsent.
  - intros msg Hopen. apply (main_propagates_os_error os args c [] _ Hjob).
    apply run_job_init_raises. now apply init_table_unreadable.
  - intros msg records Htable Hopen.
    apply (main_propagates_os_error os args c [] _ Hjob).
    apply run_job_init_raises. now apply (init_config_unreadable os args msg records).
Qed.

Lemma main_error_handling_witness :
  main (sample_args (CmdMount "mail")) sample_os =
  ([Stderr "ERR: There is no mail hostname in /home/u/.ssh/config"], inr tt)
  /\ main (sample_args (CmdMount "web")) sample_os =
     ([Stderr "ERR: Host web already mounted in /home/u/mnt/web"], inr tt)
  /\ main (sample_args (CmdUmount "db")) sample_os =
     ([Stderr "ERR: Host db already unmounted"], inr tt)
  /\ main (sample_args (CmdList true)) no_config_os =
     ([], inl (OSError "No such file or directory")).
Proof.
  split; [|split; [|split]].
  - apply (proj1 (proj1 (proj2 (main_error_handling sample_os
             (sample_args (CmdMount "mail")) (CmdMount "mail") eq_refl))
             sample_fw "mail" eq_refl)).
    + left; reflexivity.
    + simpl. intros [H|[H|[]]]; discriminate H.
  - apply (proj1 (proj2 (proj1 (proj2 (main_error_handling sample_os
             (sample_args (CmdMount "web")) (CmdMount "web") eq_refl))
             sample_fw "web" eq_refl))).
    + reflexivity.
    + simpl. auto.
    + exists (FuseMount.mk (Path.of_str "/home/u/mnt/web")).
      split; [left|]; reflexivity.
  - apply (proj2 (proj2 (proj1 (proj2 (main_error_handling sample_os
             (sample_args (CmdUmount "db")) (CmdUmount "db") eq_refl))
             sample_fw "db" eq_refl))).
    + reflexivity.
    + simpl. auto.
    + intros (fuse & [<-|[]] & Heq). discriminate Heq.
  - apply (proj2 (proj2 (proj2 (main_error_handling no_config_os
             (sample_args (CmdList true)) (CmdList true) eq_refl)))
             "No such file or directory" []); reflexivity.
Defined.

(** C1 as the claim states it fails when the SSH configuration file cannot
    be opened: the error is not recovered by [main], which ends with
    [OSError], and nothing is written to standard error. *)
Lemma main_config_unreadable :
  open_read no_config_os (Path.str (FuseWrap.DEFAULT_SSH_CFG_PATH no_config_os))
  = inl (OsFailure "No such file or directory")
  /\ main (sample_args (CmdList false)) no_config_os
     = ([], inl (OSError "No such file or directory")).
Proof. split; reflexivity. Qed.

(** ** Further properties of the readers *)

Section Tokens.

Lemma no_space_app (s t : string) :
  no_space (s +++ t) = no_space s && no_space t.
Proof.
  induction s as [|c s IH]; simpl; [reflexivity|].
  now rewrite IH, andb_assoc.
Qed.

Lemma flush_clean (tok : string) :
  no_space tok = true -> Forall clean (PyStr.flush tok).
Proof.
  intros Htok. destruct tok as [|c tok]; simpl; constructor; [|constructor].
  split; [discriminate | assumption].
Qed.

Lemma split_from_clean (s : string) :
  forall tok, no_space tok = true -> Forall clean (PyStr.split_from tok s).
Proof.
  induction s as [|c s IH]; intros tok Htok; simpl.
  - now apply flush_clean.
  - destruct (PyStr.isspace c) eqn:Hc.
    + apply Forall_app. split; [now apply flush_clean | now apply IH].
    + apply IH. rewrite no_space_app, Htok. simpl. now rewrite Hc.
Qed.

Lemma split_clean (s : string) : Forall clean (PyStr.split s).
Proof. now apply split_from_clean. Qed.

Lemma index_clean (s : string) (i : nat) (tok : string) :
  PyStr.index (PyStr.split s) i = Some tok -> clean tok.
Proof.
  intros Hi. apply nth_error_In in Hi.
  exact (proj1 (Forall_forall _ _) (split_clean s) tok Hi).
Qed.

Lemma hostnames_loop_clean (lines : list string) :
  forall acc hosts,
    Forall (fun h => clean (SSHostname._name h)) acc ->
    FuseWrap.hostnames_loop lines acc = inr hosts ->
    Forall (fun h => clean (SSHostname._name h)) hosts.
Proof.
  induction lines as [|line lines IH]; intros acc hosts Hacc Hrun;
    cbn [FuseWrap.hostnames_loop] in Hrun.
  - assert (acc = hosts) as <- by congruence. assumption.
  - destruct (PyStr.startswith line "Host"); [|now apply (IH acc)].
    destruct (PyStr.index (PyStr.split line) 1) as [name|] eqn:Hname;
      [|discriminate].
    apply (IH (acc ++ [SSHostname.mk name])); [|assumption].
    apply Forall_app. split; [assumption|].
    constructor; [|constructor]. now apply (index_clean line 1).
Qed.

Lemma keepends_not_empty (text : string) :
  Forall (fun line => line <> "") (PyStr.keepends text).
Proof.
  induction text as [|c text IH]; simpl; [constructor|].
  destruct (Ascii.eqb c PyStr.newline).
  - constructor; [discriminate | assumption].
  - destruct (PyStr.keepends text) as [|line lines].
    + constructor; [discriminate | constructor].
    + inversion IH; subst. constructor; [discriminate | assumption].
Qed.

Lemma keepends_concat (text : string) :
  fold_right String.append "" (PyStr.keepends text) = text.
Proof.
  induction text as [|c text IH]; simpl; [reflexivity|].
  destruct (Ascii.eqb c PyStr.newline).
  - simpl. now rewrite IH.
  - destruct (PyStr.keepends text) as [|line lines]; simpl in *; now rewrite IH.
Qed.

(** No carriage return is left in what a file delivers; stated for a text
    and for the text with one more character in front, which is how the
    translation recurses. *)
Lemma universal_newlines_no_cr (text : string) :
  has_char PyStr.carriage_return (PyStr.universal_newlines text) = false
  /\ (forall c,
         has_char PyStr.carriage_return
           (PyStr.universal_newlines (String c text)) = false).
Proof.
  induction text as [|d text [IH IHc]].
  - split; [reflexivity|]. intros c. simpl.
    destruct (Ascii.eqb c PyStr.carriage_return) eqn:Hc; simpl;
      [reflexivity | now rewrite Hc].
  - split; [apply IHc|]. intros c.
    cbn [PyStr.universal_newlines].
    destruct (Ascii.eqb c PyStr.carriage_return) eqn:Hc.
    + destruct (Ascii.eqb d PyStr.newline);
        cbn [has_char]; [exact IH | exact (IHc d)].
    + cbn [has_char]. rewrite Hc. exact (IHc d).
Qed.

Lemma readlines_not_empty (text : string) :
  Forall (fun line => line <> "") (PyStr.readlines text).
Proof. apply keepends_not_empty. Qed.

Lemma readlines_concat (text : string) :
  fold_right String.append "" (PyStr.readlines text)
  = PyStr.universal_newlines text.
Proof. apply keepends_concat. Qed.

Lemma hostnames_while_loop (lines : list string) :
  Forall (fun line => line <> "") lines ->
  forall acc, hostnames_while lines acc = FuseWrap.hostnames_loop lines acc.
Proof.
  induction 1 as [|line lines Hline _ IH]; intros acc;
    cbn [hostnames_while FuseWrap.hostnames_loop]; [reflexivity|].
  rewrite (proj2 (String.eqb_neq line "") Hline).
  destruct (PyStr.startswith line "Host"); [|apply IH].
  destruct (PyStr.index (PyStr.split line) 1); [apply IH | reflexivity].
Qed.

End Tokens.

(** X1: every alias the Config Reader returns is a non-empty name without
    any whitespace character, whatever the file holds. *)
Theorem get_hostnames_names_clean
    (os : OS) (path : Path.t) (t : list event) (hosts : list SSHostname.t) :
  FuseWrap._get_hostnames path os = (t, inr hosts) ->
  Forall (fun h => SSHostname._name h <> "" /\ no_space (SSHostname._name h) = true)
         hosts.
Proof.
  unfold FuseWrap._get_hostnames, bind, open, lift.
  destruct (open_read os (Path.str path)) as [f|text]; [discriminate|].
  intros Hrun.
  destruct (FuseWrap.hostnames_loop (PyStr.readlines text) []) as [e|hs] eqn:Hloop;
    [discriminate|].
  injection Hrun as _ <-.
  now apply (hostnames_loop_clean (PyStr.readlines text) [] hs).
Qed.

Lemma get_hostnames_names_clean_witness :
  Forall (fun h => SSHostname._name h <> "" /\ no_space (SSHostname._name h) = true)
         [web; db].
Proof.
  apply (get_hostnames_names_clean (fixture_os (inr "") (inr sample_config))
           (Path.of_str "/home/u/.ssh/config") [] [web; db]).
  reflexivity.
Defined.

(** X2: the reading loop of the Config Reader, which stops at the first
    empty answer of [readline], goes through the whole file: the lines it
    is given are never empty; put together they are the characters of the
    file with every line ending, a carriage return with or without a line
    feed after it included, turned into one line feed, so that no
    carriage return is left; and the loop gives what the plain loop over
    all lines gives.  A blank line in the file does not end the reading. *)
Theorem hostnames_while_reads_whole_file (text : string) :
  Forall (fun line => line <> "") (PyStr.readlines text)
  /\ fold_right String.append "" (PyStr.readlines text)
     = PyStr.universal_newlines text
  /\ has_char PyStr.carriage_return (PyStr.universal_newlines text) = false
  /\ hostnames_while (PyStr.readlines text) [] =
     FuseWrap.hostnames_loop (PyStr.readlines text) [].
Proof.
  split; [apply readlines_not_empty|].
  split; [apply readlines_concat|].
  split; [apply universal_newlines_no_cr|].
  apply hostnames_while_loop, readlines_not_empty.
Qed.

(** ** Mount roots *)

Section MountRoots.

Lemma split_on_absent (sep : ascii) (s : string) :
  has_char sep s = false -> PyStr.split_on sep s = [s].
Proof.
  induction s as [|c s IH]; simpl; [reflexivity|].
  intros H. apply orb_false_iff in H as [Hc Hs].
  now rewrite Hc, (IH Hs).
Qed.

Lemma lstrip_absent (c : ascii) (s : string) :
  has_char c s = false -> PyStr.lstrip c s = (0, s).
Proof.
  destruct s as [|d s]; simpl; [reflexivity|].
  intros H. apply orb_false_iff in H as [Hd _]. now rewrite Hd.
Qed.

Lemma of_str_plain (name : string) :
  plain_name name = true -> Path.of_str name = Path.mk "" [name].
Proof.
  unfold plain_name. intros H.
  apply andb_true_iff in H as [H Hslash].
  apply negb_true_iff in Hslash.
  unfold Path.of_str, Path.splitroot.
  rewrite (lstrip_absent _ _ Hslash), (split_on_absent _ _ Hslash).
  simpl. unfold Path.keep_component. now rewrite H.
Qed.

Lemma truediv_plain (base : Path.t) (name : string) :
  plain_name name = true ->
  Path.truediv base name = Path.mk (Path.root base) (Path.parts base ++ [name]).
Proof.
  intros H. unfold Path.truediv. now rewrite (of_str_plain name H).
Qed.

Lemma splitroot_anchored (rest : string) :
  Path.root (Path.of_str (String PyStr.slash rest)) <> "".
Proof.
  unfold Path.of_str, Path.splitroot. simpl.
  destruct (PyStr.lstrip PyStr.slash rest) as [n stripped].
  destruct n as [|[|n]]; simpl; discriminate.
Qed.

End MountRoots.

(** X3: under one mount base, two aliases whose names are plain path
    components (not empty, not a dot, without a slash) have equal mount
    roots only when they are the same alias; so a snapshot holding the
    mount root of one of them makes that one mounted and no other. *)
Theorem plain_aliases_have_distinct_mount_roots
    (base : Path.t) (h1 h2 : SSHostname.t) :
  plain_name (SSHostname._name h1) = true ->
  plain_name (SSHostname._name h2) = true ->
  (Path.eqb (SSHostname.get_path h1 base) (SSHostname.get_path h2 base) = true
   <-> h1 = h2)
  /\ (SSHostname.is_mounted h2 base [FuseMount.mk (SSHostname.get_path h1 base)]
      = true <-> h1 = h2).
Proof.
  intros H1 H2.
  assert (Heqb : Path.eqb (SSHostname.get_path h2 base) (SSHostname.get_path h1 base)
                 = String.eqb (SSHostname._name h2) (SSHostname._name h1)).
  { unfold SSHostname.get_path.
    rewrite (truediv_plain base _ H1), (truediv_plain base _ H2).
    apply eqb_child. }
  split.
  - unfold SSHostname.get_path.
    rewrite (truediv_plain base _ H1), (truediv_plain base _ H2), eqb_child.
    apply name_eqb_eq.
  - unfold SSHostname.is_mounted. simpl. rewrite Heqb.
    destruct (String.eqb _ _) eqn:E.
    + apply name_eqb_eq in E. split; congruence.
    + split; [discriminate|]. intros ->. now rewrite String.eqb_refl in E.
Qed.

Lemma plain_aliases_have_distinct_mount_roots_witness :
  (Path.eqb (SSHostname.get_path web (Path.of_str "/home/u/mnt"))
            (SSHostname.get_path db (Path.of_str "/home/u/mnt")) = true
   <-> web = db)
  /\ (SSHostname.is_mounted db (Path.of_str "/home/u/mnt")
        [FuseMount.mk (SSHostname.get_path web (Path.of_str "/home/u/mnt"))]
      = true <-> web = db).
Proof.
  apply (plain_aliases_have_distinct_mount_roots (Path.of_str "/home/u/mnt") web db);
    reflexivity.
Defined.

(** X4: for an alias whose name begins with a slash the mount base plays
    no part in the mount root: joining replaces the base, so the mount
    root is the path of the name alone, an anchored one, and it is the
    same under every mount base. *)
Theorem anchored_alias_ignores_mount_base (base : Path.t) (name : string) :
  PyStr.startswith name "/" = true ->
  SSHostname.get_path (SSHostname.mk name) base = Path.of_str name
  /\ Path.root (Path.of_str name) <> ""
  /\ (forall other_base,
         SSHostname.get_path (SSHostname.mk name) other_base
         = SSHostname.get_path (SSHostname.mk name) base).
Proof.
  unfold PyStr.startswith. intros Hname.
  destruct name as [|c rest]; [discriminate|].
  cbn [prefix] in Hname. destruct (ascii_dec "/" c) as [<-|]; [|discriminate].
  pose proof (splitroot_anchored rest) as Hroot.
  change (String "/" rest) with (String PyStr.slash rest).
  assert (Hjoin : forall b,
             SSHostname.get_path (SSHostname.mk (String PyStr.slash rest)) b
             = Path.of_str (String PyStr.slash rest)).
  { intros b. unfold SSHostname.get_path, Path.truediv. cbn [SSHostname._name].
    apply String.eqb_neq in Hroot. now rewrite Hroot. }
  split; [apply Hjoin|]. split; [assumption|].
  intros other_base. now rewrite !Hjoin.
Qed.

Lemma anchored_alias_ignores_mount_base_witness :
  SSHostname.get_path (SSHostname.mk "/etc") (Path.of_str "/home/u/mnt")
  = Path.of_str "/etc"
  /\ Path.root (Path.of_str "/etc") <> ""
  /\ (forall other_base,
         SSHostname.get_path (SSHostname.mk "/etc") other_base
         = SSHostname.get_path (SSHostname.mk "/etc") (Path.of_str "/home/u/mnt")).
Proof.
  apply (anchored_alias_ignores_mount_base (Path.of_str "/home/u/mnt") "/etc").
  reflexivity.
Defined.

(** ** Completions, and which of [mount] and [umount] goes ahead *)

Section Proceeds.

Variables (fw : FuseWrap.t) (host : SSHostname.t) (os : OS).

Lemma do_mount_starts :
  exists rest r,
    FuseWrap.do_mount fw host os = (Makedirs (FuseWrap.mount_root fw host) :: rest, r).
Proof.
  rewrite do_mount_run. cbv zeta.
  destruct (makedirs os _); [eauto|].
  destruct (popen os _); eauto.
Qed.

Lemma do_umount_starts :
  exists rest r,
    FuseWrap.do_umount fw host os =
    (Stdout (FuseWrap.quoted (FuseWrap.fusermount_args fw host))
       :: Popen (FuseWrap.fusermount_args fw host) :: rest, r).
Proof.
  rewrite do_umount_run. cbv zeta.
  destruct (popen os _); [eauto|].
  destruct (communicate os _); eauto.
Qed.

Lemma mount_proceeds_iff :
  (exists rest r,
      FuseWrap.mount fw host os = (Makedirs (FuseWrap.mount_root fw host) :: rest, r))
  <-> FuseWrap.known fw host = true /\ FuseWrap.mounted fw host = false.
Proof.
  rewrite mount_run.
  destruct (FuseWrap.known fw host); cbn [negb].
  - destruct (FuseWrap.mounted fw host).
    + split; [intros (rest & r & H); discriminate H | intros [_ H]; discriminate H].
    + split; [auto | intros _; apply do_mount_starts].
  - split; [intros (rest & r & H); discriminate H | intros [H _]; discriminate H].
Qed.

Lemma umount_proceeds_iff :
  (exists rest r,
      FuseWrap.umount fw host os =
      (Stdout (FuseWrap.quoted (FuseWrap.fusermount_args fw host))
         :: Popen (FuseWrap.fusermount_args fw host) :: rest, r))
  <-> FuseWrap.known fw host = true /\ FuseWrap.mounted fw host = true.
Proof.
  rewrite umount_run.
  destruct (FuseWrap.known fw host); cbn [negb].
  - destruct (FuseWrap.mounted fw host); cbn [negb].
    + split; [auto | intros _; apply do_umount_starts].
    + split; [intros (rest & r & H); discriminate H | intros [_ H]; discriminate H].
  - split; [intros (rest & r & H); discriminate H | intros [H _]; discriminate H].
Qed.

Lemma offered_iff (l : list SSHostname.t) (name : string) :
  In name (map SSHostname.__str__ l) <-> In (SSHostname.mk name) l.
Proof.
  rewrite in_map_iff. split.
  - intros (x & <- & Hin). now rewrite host_eta.
  - intros Hin. now exists (SSHostname.mk name).
Qed.

End Proceeds.

(** X5: the names [complete_unmounted] offers for the argument of [mount]
    are exactly the names [mount] goes ahead with: for an offered name the
    run of [mount] starts by creating the mount root, and for any other
    name nothing of the kind happens. *)
Theorem unmounted_completions_are_what_mount_accepts
    (os : OS) (args : Args) (fw : FuseWrap.t) (name : string) :
  FuseWrap.__init__ (mount_dir_path args) os = ([], inr fw) ->
  exists names,
    complete_unmounted args os = ([], inr names)
    /\ (In name names <->
        exists rest r,
          job_mount args name os =
          (Makedirs (Path.truediv (FuseWrap._mount_path fw) name) :: rest, r)).
Proof.
  intros Hinit. exists (map SSHostname.__str__ (FuseWrap.get_unmounted fw)). split.
  - unfold complete_unmounted, bind. now rewrite Hinit.
  - change (job_mount args name os) with (run_job args (CmdMount name) os).
    rewrite (run_job_mount os args fw name Hinit).
    rewrite offered_iff.
    change (Path.truediv (FuseWrap._mount_path fw) name)
      with (FuseWrap.mount_root fw (SSHostname.mk name)).
    rewrite mount_proceeds_iff.
    unfold FuseWrap.get_unmounted. rewrite filter_In, negb_true_iff.
    now rewrite <- known_In.
Qed.

Lemma unmounted_completions_are_what_mount_accepts_witness :
  exists names,
    complete_unmounted (sample_args (CmdList false)) sample_os = ([], inr names)
    /\ (In "db" names <->
        exists rest r,
          job_mount (sample_args (CmdList false)) "db" sample_os =
          (Makedirs (Path.truediv (FuseWrap._mount_path sample_fw) "db") :: rest, r)).
Proof.
  apply (unmounted_completions_are_what_mount_accepts sample_os
           (sample_args (CmdList false)) sample_fw "db").
  reflexivity.
Defined.

(** X6: the names [complete_mounted] offers for the argument of [umount]
    are exactly the names [umount] goes ahead with: for an offered name
    the run of [umount] starts by running [fusermount -u] on the mount
    root, and for any other name nothing of the kind happens. *)
Theorem mounted_completions_are_what_umount_accepts
    (os : OS) (args : Args) (fw : FuseWrap.t) (name : string) :
  FuseWrap.__init__ (mount_dir_path args) os = ([], inr fw) ->
  let cmd := ["fusermount"; "-u";
              Path.str (Path.truediv (FuseWrap._mount_path fw) name)] in
  exists names,
    complete_mounted args os = ([], inr names)
    /\ (In name names <->
        exists rest r,
          job_umount args name os =
          (Stdout (FuseWrap.quoted cmd) :: Popen cmd :: rest, r)).
Proof.
  intros Hinit cmd. exists (map SSHostname.__str__ (FuseWrap.get_mounted fw)). split.
  - unfold complete_mounted, bind. now rewrite Hinit.
  - change (job_umount args name os) with (run_job args (CmdUmount name) os).
    rewrite (run_job_umount os args fw name Hinit).
    rewrite offered_iff.
    change cmd with (FuseWrap.fusermount_args fw (SSHostname.mk name)).
    rewrite umount_proceeds_iff.
    unfold FuseWrap.get_mounted. rewrite filter_In.
    now rewrite <- known_In.
Qed.

Lemma mounted_completions_are_what_umount_accepts_witness :
  exists names,
    complete_mounted (sample_args (CmdList false)) sample_os = ([], inr names)
    /\ (In "web" names <->
        exists rest r,
          job_umount (sample_args (CmdList false)) "web" sample_os =
          (Stdout (FuseWrap.quoted ["fusermount"; "-u"; "/home/u/mnt/web"])
             :: Popen ["fusermount"; "-u"; "/home/u/mnt/web"] :: rest, r)).
Proof.
  apply (mounted_completions_are_what_umount_accepts sample_os
           (sample_args (CmdList false)) sample_fw "web").
  reflexivity.
Defined.

(** X7: for a configured alias exactly one of [mount] and [umount] goes
    ahead, whatever the snapshot is: either [mount] is refused as already
    mounted and [umount] runs [fusermount], or [umount] is refused as
    already unmounted and [mount] creates the mount root. *)
Theorem configured_alias_mounts_or_unmounts
    (fw : FuseWrap.t) (host : SSHostname.t) (os : OS) :
  In host (FuseWrap._hosts fw) ->
  let mount_root := Path.truediv (FuseWrap._mount_path fw) (SSHostname._name host) in
  let cmd := ["fusermount"; "-u"; Path.str mount_root] in
  (FuseWrap.mount fw host os =
   ([], inl (FuseWrapException (FuseWrap.already_mounted_msg host mount_root)))
   /\ exists rest r,
       FuseWrap.umount fw host os =
       (Stdout (FuseWrap.quoted cmd) :: Popen cmd :: rest, r))
  \/ (FuseWrap.umount fw host os =
      ([], inl (FuseWrapException (FuseWrap.already_unmounted_msg host)))
      /\ exists rest r,
          FuseWrap.mount fw host os = (Makedirs mount_root :: rest, r)).
Proof.
  intros Hknown mount_root cmd. apply known_In in Hknown.
  destruct (FuseWrap.mounted fw host) eqn:Hmounted.
  - left. split.
    + rewrite mount_run, Hknown, Hmounted. reflexivity.
    + apply umount_proceeds_iff. auto.
  - right. split.
    + rewrite umount_run, Hknown, Hmounted. reflexivity.
    + apply mount_proceeds_iff. auto.
Qed.

Lemma configured_alias_mounts_or_unmounts_witness :
  (FuseWrap.mount sample_fw web sample_os =
   ([], inl (FuseWrapException "Host web already mounted in /home/u/mnt/web"))
   /\ exists rest r,
       FuseWrap.umount sample_fw web sample_os =
       (Stdout (FuseWrap.quoted ["fusermount"; "-u"; "/home/u/mnt/web"])
          :: Popen ["fusermount"; "-u"; "/home/u/mnt/web"] :: rest, r))
  \/ (FuseWrap.umount sample_fw web sample_os =
      ([], inl (FuseWrapException "Host web already unmounted"))
      /\ exists rest r,
          FuseWrap.mount sample_fw web sample_os =
          (Makedirs (Path.of_str "/home/u/mnt/web") :: rest, r)).
Proof.
  apply (configured_alias_mounts_or_unmounts sample_fw web sample_os).
  simpl. auto.
Defined.

(** ** Listing *)

Section Listing.

Lemma print_each_run (lines : list string) (os : OS) :
  print_each lines os = (map Stdout lines, inr tt).
Proof.
  induction lines as [|line lines IH]; simpl; [reflexivity|].
  unfold bind, print. now rewrite IH.
Qed.

Lemma job_list_run (os : OS) (args : Args) (all : bool) (fw : FuseWrap.t) :
  FuseWrap.__init__ (mount_dir_path args) os = ([], inr fw) ->
  job_list args all os =
  (map Stdout (map (mounted_line fw) (FuseWrap.get_mounted fw)
               ++ if all then map unmounted_line (FuseWrap.get_unmounted fw)
                  else []),
   inr tt).
Proof.
  intros Hinit. unfold job_list. unfold bind at 1. rewrite Hinit.
  unfold bind. rewrite print_each_run. rewrite map_app.
  destruct all.
  - rewrite print_each_run. reflexivity.
  - unfold ret. now rewrite !app_nil_r.
Qed.

Lemma fuse_mounts_loop_error (lines : list string) :
  forall acc e, FuseWrap.fuse_mounts_loop lines acc = inl e -> e = IndexError.
Proof.
  induction lines as [|line lines IH]; intros acc e;
    cbn [FuseWrap.fuse_mounts_loop]; [discriminate|].
  destruct (PyStr.index (PyStr.split line) 2) as [fstype|]; [|congruence].
  destruct (String.eqb fstype "fuse.sshfs"); [|apply IH].
  destruct (PyStr.index (PyStr.split line) 1); [apply IH | congruence].
Qed.

Lemma hostnames_loop_error (lines : list string) :
  forall acc e, FuseWrap.hostnames_loop lines acc = inl e -> e = IndexError.
Proof.
  induction lines as [|line lines IH]; intros acc e;
    cbn [FuseWrap.hostnames_loop]; [discriminate|].
  destruct (PyStr.startswith line "Host"); [|apply IH].
  destruct (PyStr.index (PyStr.split line) 1); [apply IH | congruence].
Qed.

Lemma failure_not_fusewrap (f : failure) (msg : string) :
  exn_of_failure f <> FuseWrapException msg.
Proof. destruct f; discriminate. Qed.

(** The constructor makes no call that acts on the world, and never
    raises the tool's own exception. *)
Lemma init_outcome (mount_dir : string) (os : OS) :
  exists r,
    FuseWrap.__init__ mount_dir os = ([], r)
    /\ (forall msg, r <> inl (FuseWrapException msg)).
Proof.
  unfold FuseWrap.__init__, FuseWrap._get_fuse_mounts, FuseWrap._get_hostnames,
    bind, open, lift, ret.
  destruct (open_read os "/proc/mounts") as [f|table].
  { eexists. split; [reflexivity|]. intros msg H. injection H as H.
    exact (failure_not_fusewrap _ _ H). }
  destruct (FuseWrap.fuse_mounts_loop (PyStr.readlines table) []) as [e|fuses] eqn:Ht.
  { eexists. split; [reflexivity|]. intros msg H. injection H as H.
    apply fuse_mounts_loop_error in Ht. congruence. }
  destruct (open_read os _) as [f|config].
  { eexists. split; [reflexivity|]. intros msg H. injection H as H.
    exact (failure_not_fusewrap _ _ H). }
  destruct (FuseWrap.hostnames_loop (PyStr.readlines config) []) as [e|hosts] eqn:Hc.
  { eexists. split; [reflexivity|]. intros msg H. injection H as H.
    apply hostnames_loop_error in Hc. congruence. }
  eexists. split; [reflexivity|]. discriminate.
Qed.

Lemma Forall_stdout (lines : list string) :
  Forall (fun ev => is_stdout ev = true) (map Stdout lines).
Proof. apply Forall_forall. intros ev Hin. apply in_map_iff in Hin as (s & <- & _). reflexivity. Qed.

End Listing.



(** X9: [list] only prints: in every run, whatever the files hold and
    whether or not they can be read, each event of its trace is a line on
    standard output, and it never ends with the tool's own exception. *)
Theorem job_list_only_prints (os : OS) (args : Args) (all : bool) :
  Forall (fun ev => is_stdout ev = true) (fst (job_list args all os))
  /\ (forall msg, snd (job_list args all os) <> inl (FuseWrapException msg)).
Proof.
  destruct (init_outcome (mount_dir_path args) os) as (r & Hinit & Hr).
  destruct r as [e|fw].
  - assert (Hrun : job_list args all os = ([], inl e)).
    { unfold job_list. unfold bind at 1. now rewrite Hinit. }
    rewrite Hrun. split; [constructor|].
    intros msg H. apply (Hr msg). simpl in H. congruence.
  - rewrite (job_list_run os args all fw Hinit). split.
    + apply Forall_stdout.
    + discriminate.
Qed.

(** ** Failures and interruptions at the top level *)

Section Outcomes.

Variables (os : OS) (args : Args).

Lemma main_propagates_index_error (c : command) (t : list event) :
  job args = Some c ->
  run_job args c os = (t, inl IndexError) ->
  main args os = (t, inl IndexError).
Proof.
  intros Hjob Hrun. unfold main. rewrite Hjob.
  unfold try_except. now rewrite Hrun.
Qed.

Lemma main_interrupted (c : command) (t : list event) :
  job args = Some c ->
  run_job args c os = (t, inl KeyboardInterrupt) ->
  main args os = (t ++ [Stdout "Job canceled"], inr tt).
Proof.
  intros Hjob Hrun. unfold main. rewrite Hjob.
  unfold try_except. now rewrite Hrun.
Qed.

Lemma init_table_short (table : string) :
  open_read os "/proc/mounts" = inr table ->
  Exists (fun line => length (PyStr.split line) < 3) (PyStr.readlines table) ->
  FuseWrap.__init__ (mount_dir_path args) os = ([], inl IndexError).
Proof.
  intros Hopen Hshort. unfold FuseWrap.__init__. unfold bind at 1.
  rewrite (get_fuse_mounts_unfold os table Hopen).
  now rewrite (fuse_mounts_loop_short _ Hshort).
Qed.

Lemma init_config_short (records : list FuseMount.t) (config : string) :
  FuseWrap._get_fuse_mounts os = ([], inr records) ->
  open_read os (Path.str (FuseWrap.DEFAULT_SSH_CFG_PATH os)) = inr config ->
  Exists (fun line => PyStr.startswith line "Host" = true
                      /\ length (PyStr.split line) < 2)
         (PyStr.readlines config) ->
  FuseWrap.__init__ (mount_dir_path args) os = ([], inl IndexError).
Proof.
  intros Htable Hopen Hshort. unfold FuseWrap.__init__. unfold bind at 1.
  rewrite Htable. unfold bind.
  rewrite (get_hostnames_unfold os _ config Hopen).
  now rewrite (hostnames_loop_short _ Hshort).
Qed.

End Outcomes.

Section Traces.

Variables (fw : FuseWrap.t) (host : SSHostname.t) (os : OS).

Lemma mount_trace (ev : event) :
  In ev (fst (FuseWrap.mount fw host os)) ->
  ev = Makedirs (FuseWrap.mount_root fw host)
  \/ ev = Stdout (FuseWrap.quoted (FuseWrap.sshfs_args fw host))
  \/ ev = Popen (FuseWrap.sshfs_args fw host)
  \/ ev = Communicate (FuseWrap.sshfs_args fw host).
Proof.
  rewrite mount_run, do_mount_run. cbv zeta.
  destruct (FuseWrap.known fw host); cbn [negb fst]; [|intros []].
  destruct (FuseWrap.mounted fw host); cbn [fst]; [intros []|].
  destruct (makedirs os _); [|destruct (popen os _)]; simpl; intuition.
Qed.

Lemma umount_trace (ev : event) :
  In ev (fst (FuseWrap.umount fw host os)) ->
  ev = Stdout (FuseWrap.quoted (FuseWrap.fusermount_args fw host))
  \/ ev = Popen (FuseWrap.fusermount_args fw host)
  \/ ev = Communicate (FuseWrap.fusermount_args fw host)
  \/ (ev = Rmdir (FuseWrap.mount_root fw host)
      /\ popen os (FuseWrap.fusermount_args fw host) = None
      /\ communicate os (FuseWrap.fusermount_args fw host) = None).
Proof.
  rewrite umount_run, do_umount_run. cbv zeta.
  destruct (FuseWrap.known fw host); cbn [negb fst]; [|intros []].
  destruct (FuseWrap.mounted fw host); cbn [negb fst]; [|intros []].
  destruct (popen os _) eqn:Hp; [|destruct (communicate os _) eqn:Hc];
    simpl; intuition.
Qed.

Lemma mount_refusal_is_first (msg : string) :
  snd (FuseWrap.mount fw host os) = inl (FuseWrapException msg) ->
  fst (FuseWrap.mount fw host os) = [].
Proof.
  rewrite mount_run, do_mount_run. cbv zeta.
  destruct (FuseWrap.known fw host); cbn [negb]; [|reflexivity].
  destruct (FuseWrap.mounted fw host); [reflexivity|].
  destruct (makedirs os _) as [f|]; [|destruct (popen os _) as [f|];
    [|destruct (communicate os _) as [f|]]]; simpl; intros H;
    try discriminate H; injection H as H;
    now apply failure_not_fusewrap in H.
Qed.

Lemma umount_refusal_is_first (msg : string) :
  snd (FuseWrap.umount fw host os) = inl (FuseWrapException msg) ->
  fst (FuseWrap.umount fw host os) = [].
Proof.
  rewrite umount_run, do_umount_run. cbv zeta.
  destruct (FuseWrap.known fw host); cbn [negb]; [|reflexivity].
  destruct (FuseWrap.mounted fw host); cbn [negb]; [|reflexivity].
  destruct (popen os _) as [f|]; [|destruct (communicate os _) as [f|];
    [|destruct (rmdir os _) as [f|]]]; simpl; intros H;
    try discriminate H; injection H as H;
    now apply failure_not_fusewrap in H.
Qed.

End Traces.

Section Quiet.

Variables (os : OS) (args : Args) (c : command).

(** A job writes nothing to standard error, and when it ends with the
    tool's own exception it has made no call at all. *)
Lemma run_job_quiet :
  (forall s, ~ In (Stderr s) (fst (run_job args c os)))
  /\ (forall msg,
         snd (run_job args c os) = inl (FuseWrapException msg) ->
         fst (run_job args c os) = []).
Proof.
  destruct (init_outcome (mount_dir_path args) os) as (r & Hinit & Hr).
  destruct r as [e|fw].
  - rewrite (run_job_init_raises os args c [] e Hinit). split; [intros s []|reflexivity].
  - destruct c as [all|name|name].
    + change (run_job args (CmdList all) os) with (job_list args all os).
      rewrite (job_list_run os args all fw Hinit). split; [|discriminate].
      intros s Hin. apply in_map_iff in Hin as (x & Hx & _). discriminate Hx.
    + rewrite (run_job_mount os args fw name Hinit). split.
      * intros s Hin. apply mount_trace in Hin.
        destruct Hin as [H|[H|[H|H]]]; discriminate H.
      * apply mount_refusal_is_first.
    + rewrite (run_job_umount os args fw name Hinit). split.
      * intros s Hin. apply umount_trace in Hin.
        destruct Hin as [H|[H|[H|[H _]]]]; discriminate H.
      * apply umount_refusal_is_first.
Qed.

End Quiet.

(** X10: a malformed line is fatal to every subcommand, [list] included:
    when some line of the mount table has fewer than three fields, or the
    table is fine and some line of the configuration whose text starts
    with [Host] has no second token, [main] ends with [IndexError], which
    it does not recover, and nothing is printed.  Lines are the lines of
    text mode: a carriage return ends a line as a line feed does. *)
Theorem malformed_line_breaks_every_command (os : OS) (args : Args) (c : command) :
  job args = Some c ->
  (forall table,
      open_read os "/proc/mounts" = inr table ->
      Exists (fun line => length (PyStr.split line) < 3) (PyStr.readlines table) ->
      main args os = ([], inl IndexError))
  /\ (forall records config,
         FuseWrap._get_fuse_mounts os = ([], inr records) ->
         open_read os (Path.str (FuseWrap.DEFAULT_SSH_CFG_PATH os)) = inr config ->
         Exists (fun line => PyStr.startswith line "Host" = true
                             /\ length (PyStr.split line) < 2)
                (PyStr.readlines config) ->
         main args os = ([], inl IndexError)).
Proof.
  intros Hjob. split.
  - intros table Hopen Hshort.
    apply (main_propagates_index_error os args c [] Hjob).
    apply run_job_init_raises. now apply (init_table_short os args table).
  - intros records config Htable Hopen Hshort.
    apply (main_propagates_index_error os args c [] Hjob).
    apply run_job_init_raises.
    now apply (init_config_short os args records config).
Qed.

Lemma malformed_line_breaks_every_command_witness :
  main (sample_args (CmdList false))
       (fixture_os (inr (sample_table +++ NL)) (inr web_db_config))
  = ([], inl IndexError)
  /\ main (sample_args (CmdMount "web"))
          (fixture_os (inr sample_table) (inr ("Host" +++ NL)))
     = ([], inl IndexError).
Proof.
  split.
  - apply (proj1 (malformed_line_breaks_every_command
                    (fixture_os (inr (sample_table +++ NL)) (inr web_db_config))
                    (sample_args (CmdList false)) (CmdList false) eq_refl)
             (sample_table +++ NL) eq_refl).
    apply Exists_exists. exists NL. split; [vm_compute; tauto | vm_compute; lia].
  - apply (proj2 (malformed_line_breaks_every_command
                    (fixture_os (inr sample_table) (inr ("Host" +++ NL)))
                    (sample_args (CmdMount "web")) (CmdMount "web") eq_refl)
             _ ("Host" +++ NL) eq_refl eq_refl).
    apply Exists_cons_hd. split; [reflexivity | vm_compute; lia].
Defined.

(** X11: when the wait for [sshfs] is interrupted from the keyboard,
    [main] prints [Job canceled] on standard output and returns normally;
    the mount root it created stays: no directory is removed. *)
Theorem interrupted_mount_is_canceled
    (os : OS) (args : Args) (name : string) (fw : FuseWrap.t) :
  let host := SSHostname.mk name in
  let mount_root := Path.truediv (FuseWrap._mount_path fw) name in
  let cmd := ["sshfs"; name +++ ":/"; Path.str mount_root] in
  job args = Some (CmdMount name) ->
  FuseWrap.__init__ (mount_dir_path args) os = ([], inr fw) ->
  In host (FuseWrap._hosts fw) ->
  ~ Spec.present mount_root (FuseWrap._fuse_mounts fw) ->
  makedirs os mount_root = None ->
  popen os cmd = None ->
  communicate os cmd = Some Interrupt ->
  main args os =
  ([Makedirs mount_root; Stdout (FuseWrap.quoted cmd); Popen cmd; Communicate cmd;
    Stdout "Job canceled"], inr tt).
Proof.
  intros host mount_root cmd Hjob Hinit Hknown Habsent Hmk Hpopen Hwait.
  apply known_In in Hknown. apply (mounted_not_present fw host) in Habsent.
  apply (main_interrupted os args (CmdMount name)
           [Makedirs mount_root; Stdout (FuseWrap.quoted cmd); Popen cmd;
            Communicate cmd] Hjob).
  rewrite (run_job_mount os args fw name Hinit), mount_run.
  fold host. rewrite Hknown, Habsent. cbn [negb].
  rewrite do_mount_run. cbv zeta.
  change (FuseWrap.mount_root fw host) with mount_root.
  change (FuseWrap.sshfs_args fw host) with cmd.
  now rewrite Hmk, Hpopen, Hwait.
Qed.

Lemma interrupted_mount_is_canceled_witness :
  main (sample_args (CmdMount "db")) interrupted_os =
  ([Makedirs (Path.of_str "/home/u/mnt/db");
    Stdout (FuseWrap.quoted ["sshfs"; "db:/"; "/home/u/mnt/db"]);
    Popen ["sshfs"; "db:/"; "/home/u/mnt/db"];
    Communicate ["sshfs"; "db:/"; "/home/u/mnt/db"];
    Stdout "Job canceled"], inr tt).
Proof.
  apply (interrupted_mount_is_canceled interrupted_os
           (sample_args (CmdMount "db")) "db" sample_fw);
    try reflexivity.
  - simpl. auto.
  - intros (fuse & [<-|[]] & Heq). discriminate Heq.
Defined.

(** X12: [mount] makes no other call than its own four: in every run each
    event of its trace is the creation of the mount root, the printed
    command line, the start of [sshfs] with the remote spec and the mount
    root, or the wait for it.  It never removes a directory and never
    starts another program. *)
Theorem mount_only_makes_its_calls
    (fw : FuseWrap.t) (host : SSHostname.t) (os : OS) (ev : event) :
  let mount_root := Path.truediv (FuseWrap._mount_path fw) (SSHostname._name host) in
  let cmd := ["sshfs"; SSHostname._name host +++ ":/"; Path.str mount_root] in
  In ev (fst (FuseWrap.mount fw host os)) ->
  ev = Makedirs mount_root \/ ev = Stdout (FuseWrap.quoted cmd)
  \/ ev = Popen cmd \/ ev = Communicate cmd.
Proof.
  intros mount_root cmd Hin. exact (mount_trace fw host os ev Hin).
Qed.

Lemma mount_only_makes_its_calls_witness :
  Popen ["sshfs"; "db:/"; "/home/u/mnt/db"]
  = Makedirs (Path.of_str "/home/u/mnt/db")
  \/ Popen ["sshfs"; "db:/"; "/home/u/mnt/db"]
     = Stdout (FuseWrap.quoted ["sshfs"; "db:/"; "/home/u/mnt/db"])
  \/ Popen ["sshfs"; "db:/"; "/home/u/mnt/db"]
     = Popen ["sshfs"; "db:/"; "/home/u/mnt/db"]
  \/ Popen ["sshfs"; "db:/"; "/home/u/mnt/db"]
     = Communicate ["sshfs"; "db:/"; "/home/u/mnt/db"].
Proof.
  apply (mount_only_makes_its_calls sample_fw db sample_os
           (Popen ["sshfs"; "db:/"; "/home/u/mnt/db"])).
  simpl. auto.
Defined.

(** X13: [umount] removes nothing but the mount root, and only after
    [fusermount] was started and waited for without a failure: when the
    program cannot be started or the wait fails, no directory is removed.
    Its other events are the printed command line, the start of
    [fusermount -u] on the mount root and the wait; it never creates a
    directory. *)
Theorem umount_removes_only_after_wait
    (fw : FuseWrap.t) (host : SSHostname.t) (os : OS) (ev : event) :
  let mount_root := Path.truediv (FuseWrap._mount_path fw) (SSHostname._name host) in
  let cmd := ["fusermount"; "-u"; Path.str mount_root] in
  In ev (fst (FuseWrap.umount fw host os)) ->
  ev = Stdout (FuseWrap.quoted cmd) \/ ev = Popen cmd \/ ev = Communicate cmd
  \/ (ev = Rmdir mount_root /\ popen os cmd = None /\ communicate os cmd = None).
Proof.
  intros mount_root cmd Hin. exact (umount_trace fw host os ev Hin).
Qed.

Lemma umount_removes_only_after_wait_witness :
  let ev := Rmdir (Path.of_str "/home/u/mnt/web") in
  let cmd := ["fusermount"; "-u"; "/home/u/mnt/web"] in
  ev = Stdout (FuseWrap.quoted cmd) \/ ev = Popen cmd \/ ev = Communicate cmd
  \/ (ev = Rmdir (Path.of_str "/home/u/mnt/web")
      /\ popen sample_os cmd = None /\ communicate sample_os cmd = None).
Proof.
  apply (umount_removes_only_after_wait sample_fw web sample_os
           (Rmdir (Path.of_str "/home/u/mnt/web"))).
  simpl. auto.
Defined.

(** X14: when the mount root cannot be removed after [fusermount] has
    run, the failure of [rmdir] is not recovered: [main] ends with that
    [OSError] after the three calls before it, and prints no [ERR] line. *)
Theorem rmdir_failure_propagates
    (os : OS) (args : Args) (name msg : string) (fw : FuseWrap.t) :
  let host := SSHostname.mk name in
  let mount_root := Path.truediv (FuseWrap._mount_path fw) name in
  let cmd := ["fusermount"; "-u"; Path.str mount_root] in
  job args = Some (CmdUmount name) ->
  FuseWrap.__init__ (mount_dir_path args) os = ([], inr fw) ->
  In host (FuseWrap._hosts fw) ->
  Spec.present mount_root (FuseWrap._fuse_mounts fw) ->
  popen os cmd = None ->
  communicate os cmd = None ->
  rmdir os mount_root = Some (OsFailure msg) ->
  main args os =
  ([Stdout (FuseWrap.quoted cmd); Popen cmd; Communicate cmd; Rmdir mount_root],
   inl (OSError msg)).
Proof.
  intros host mount_root cmd Hjob Hinit Hknown Hpresent Hpopen Hwait Hrm.
  apply known_In in Hknown. apply (mounted_present fw host) in Hpresent.
  apply (main_propagates_os_error os args (CmdUmount name) _ msg Hjob).
  rewrite (run_job_umount os args fw name Hinit), umount_run.
  fold host. rewrite Hknown, Hpresent. cbn [negb].
  rewrite do_umount_run. cbv zeta.
  change (FuseWrap.mount_root fw host) with mount_root.
  change (FuseWrap.fusermount_args fw host) with cmd.
  now rewrite Hpopen, Hwait, Hrm.
Qed.

Lemma rmdir_failure_propagates_witness :
  main (sample_args (CmdUmount "web")) busy_os =
  ([Stdout (FuseWrap.quoted ["fusermount"; "-u"; "/home/u/mnt/web"]);
    Popen ["fusermount"; "-u"; "/home/u/mnt/web"];
    Communicate ["fusermount"; "-u"; "/home/u/mnt/web"];
    Rmdir (Path.of_str "/home/u/mnt/web")],
   inl (OSError "Directory not empty")).
Proof.
  apply (rmdir_failure_propagates busy_os (sample_args (CmdUmount "web"))
           "web" "Directory not empty" sample_fw);
    try reflexivity.
  - simpl. auto.
  - exists (FuseMount.mk (Path.of_str "/home/u/mnt/web")).
    split; [left|]; reflexivity.
Defined.

(** X15: an [ERR] line printed by [main] means that the tool did
    nothing else: in every run of [main] from the parsed arguments on, if
    [main] itself prints to standard error then that print is the only
    call of the run, that is, no directory was created or removed, no
    program was started and nothing was printed on standard output, and
    [main] returns normally.  What a started program writes is not a
    print of [main]. *)
Theorem err_line_means_nothing_done
    (os : OS) (args : Args) (s : string) (t : list event) (r : result unit) :
  main args os = (t, r) ->
  In (Stderr s) t ->
  t = [Stderr s] /\ r = inr tt.
Proof.
  unfold main. destruct (job args) as [c|].
  - destruct (run_job_quiet os args c) as [Hquiet Hfirst].
    unfold try_except.
    destruct (run_job args c os) as [t0 r0]. cbn [fst snd] in *.
    destruct r0 as [e|u].
    + destruct e; intros Hmain Hin; injection Hmain as <- <-;
        try (now contradiction (Hquiet s)).
      * rewrite (Hfirst msg eq_refl) in *. simpl in *.
        destruct Hin as [Heq|[]]. now rewrite Heq.
      * apply in_app_or in Hin as [Hin|[Hin|[]]];
          [now contradiction (Hquiet s) | discriminate Hin].
    + intros Hmain Hin. injection Hmain as <- <-. now contradiction (Hquiet s).
  - unfold bind, call, raise. simpl.
    intros Hmain Hin. injection Hmain as <- <-.
    destruct Hin as [Hin|[]]. discriminate Hin.
Qed.

Lemma err_line_means_nothing_done_witness :
  [Stderr "ERR: Host db already unmounted"]
  = [Stderr "ERR: Host db already unmounted"]
  /\ (inr tt : result unit) = inr tt.
Proof.
  apply (err_line_means_nothing_done sample_os (sample_args (CmdUmount "db"))
           "ERR: Host db already unmounted").
  - reflexivity.
  - simpl. auto.
Defined.
